(** * Web Audit API server: a model of [server.js] and its upload contract

    The server is a thin layer over Express, multer and Node's [fs] and
    [path] modules.  The development below embeds the handlers of
    [server.js] as pure functions over an explicit file-system state and an
    explicit clock, together with the part of the libraries' behaviour the
    handlers rely on (route matching, the multipart middleware and the way
    it collects text fields, the static file route, the lenient base64
    decoder, POSIX path joining). *)

From Stdlib Require Import NArith ZArith Bool Ascii String DecimalString DecimalN.
From Stdlib.Strings Require Import Byte.
From stdpp Require Import gmap strings list fin_maps.

Open Scope string_scope.
Open Scope list_scope.
Set Warnings "-register-all".

(** ** Strings *)

Module Str.

(** [String.prototype.startsWith]. *)
Definition starts_with (p s : string) : bool := String.prefix p s.

(** [s.slice(p.length)] when [s] starts with [p]. *)
Fixpoint drop_prefix (p s : string) : option string :=
  match p, s with
  | EmptyString, _ => Some s
  | String a p', String b s' =>
      if Ascii.eqb a b then drop_prefix p' s' else None
  | String _ _, EmptyString => None
  end.

Fixpoint drop_while (f : ascii -> bool) (s : string) : string :=
  match s with
  | String c r => if f c then drop_while f r else s
  | EmptyString => EmptyString
  end.

Fixpoint all (f : ascii -> bool) (s : string) : bool :=
  match s with
  | String c r => f c && all f r
  | EmptyString => true
  end.

Definition contains (c : ascii) (s : string) : bool :=
  negb (all (fun d => negb (Ascii.eqb d c)) s).

(** [String.prototype.split] on a one-character separator. *)
Fixpoint split_on (sep : ascii) (s : string) : list string :=
  match s with
  | EmptyString => [EmptyString]
  | String c r =>
      if Ascii.eqb c sep then EmptyString :: split_on sep r
      else match split_on sep r with
           | h :: t => String c h :: t
           | [] => [String c EmptyString]
           end
  end.

(** The text before the first character satisfying [f]. *)
Fixpoint take_until (f : ascii -> bool) (s : string) : string :=
  match s with
  | String c r => if f c then EmptyString else String c (take_until f r)
  | EmptyString => EmptyString
  end.

Fixpoint last_char (s : string) : option ascii :=
  match s with
  | EmptyString => None
  | String c EmptyString => Some c
  | String _ r => last_char r
  end.

Definition ends_with_char (c : ascii) (s : string) : bool :=
  match last_char s with
  | Some d => Ascii.eqb d c
  | None => false
  end.

Definition between (lo hi c : ascii) : bool :=
  (N.leb (N_of_ascii lo) (N_of_ascii c)) && (N.leb (N_of_ascii c) (N_of_ascii hi)).

Definition is_lower (c : ascii) : bool := between "a" "z" c.
Definition is_upper (c : ascii) : bool := between "A" "Z" c.
Definition is_digit (c : ascii) : bool := between "0" "9" c.

Definition lower_char (c : ascii) : ascii :=
  if is_upper c then ascii_of_N (N_of_ascii c + 32)%N else c.

Fixpoint lower (s : string) : string :=
  match s with
  | String c r => String (lower_char c) (lower r)
  | EmptyString => EmptyString
  end.

(** Decimal rendering of a non-negative integer, as in a template literal. *)
Definition of_N (n : N) : string := NilEmpty.string_of_uint (N.to_uint n).

(** [Array.prototype.join]. *)
Fixpoint join (sep : string) (l : list string) : string :=
  match l with
  | [] => EmptyString
  | [x] => x
  | x :: r => x +:+ sep +:+ join sep r
  end.

(** [String.prototype.padStart(width, '0')]. *)
Fixpoint zeros (n : nat) : string :=
  match n with
  | O => EmptyString
  | S n' => String "0" (zeros n')
  end.

Definition pad0 (width : nat) (s : string) : string :=
  zeros (width - String.length s) +:+ s.

End Str.

(** ** JSON values *)

Inductive json : Type :=
| JNull
| JBool (b : bool)
| JNum (z : Z)
| JStr (s : string)
| JArr (items : list json)
| JObj (fields : list (string * json)).

(** Property access [o.k] on an own property; [None] is [undefined].  The
    list holds the properties of the parsed object, each key once. *)
Fixpoint assoc {A} (k : string) (l : list (string * A)) : option A :=
  match l with
  | [] => None
  | (k', v) :: r => if String.eqb k k' then Some v else assoc k r
  end.

Definition prop (k : string) (v : json) : option json :=
  match v with
  | JObj fields => assoc k fields
  | _ => None
  end.

(** JavaScript truthiness of a value read from a JSON body. *)
Definition truthy (v : option json) : bool :=
  match v with
  | None => false
  | Some JNull => false
  | Some (JBool b) => b
  | Some (JNum z) => negb (Z.eqb z 0)
  | Some (JStr s) => negb (String.eqb s "")
  | Some (JArr _) => true
  | Some (JObj _) => true
  end.

(** ** [append-field]: how multer adds a text field to [req.body]

    The name of a field is read as a path: [a[b][2]] names the property
    [b] of [a] and then index 2 of that, [a[]] appends to an array, and a
    name that is no such path is used whole.  A name given twice turns its
    value into an array of the values.  A body built this way holds only
    strings, arrays and objects; [JNull] stands for a hole of a sparse array
    (which is what its JSON text shows).  Indices are taken to be within the
    range of array indices. *)

Module AppendField.

(** A step of a path: of type 'object' or of type 'array'. *)
Inductive key : Type :=
| Name (k : string)
| Index (n : N).

Record path : Type := { p_first : string; p_steps : list key; p_append : bool }.

(** [parseInt(s, 10)] on a run of digits. *)
Definition digits_value (s : string) : N :=
  (fix go (s : string) (acc : N) : N :=
     match s with
     | EmptyString => acc
     | String c r => go r (10 * acc + (N_of_ascii c - 48))%N
     end) s 0%N.

(** The text between two brackets: digits only ([/^\[(\d+)\]/]) give an
    index, anything else ([/^\[([^\]]+)\]/]) a property name. *)
Definition step_of (inner : string) : key :=
  if Str.all Str.is_digit inner then Index (digits_value inner) else Name inner.

(** The steps after the first key.  [inner] is the text read since the last
    opening bracket, if one is open.  An empty pair of brackets must end the
    name; anything but a bracket between two steps, or a bracket left open,
    makes the parse fail. *)
Fixpoint parse_steps (s : string) (inner : option string) (acc : list key)
  : option (list key * bool) :=
  match s, inner with
  | EmptyString, None => Some (acc, false)
  | EmptyString, Some _ => None
  | String c r, None =>
      if Ascii.eqb c "[" then parse_steps r (Some EmptyString) acc else None
  | String c r, Some t =>
      if Ascii.eqb c "]" then
        if String.eqb t "" then
          match r with
          | EmptyString => Some (acc, true)
          | String _ _ => None
          end
        else parse_steps r None (acc ++ [step_of t])
      else parse_steps r (Some (t +:+ String c EmptyString)) acc
  end.

(** [parsePath(key)]; [None] is the failure case, where the whole name is
    the only step. *)
Definition parsePath (k : string) : option path :=
  let firstKey := Str.take_until (Ascii.eqb "[") k in
  if String.eqb firstKey "" then None
  else
    match parse_steps (Str.drop_while (fun c => negb (Ascii.eqb "[" c)) k) None [] with
    | Some (steps, append) =>
        Some {| p_first := firstKey; p_steps := steps; p_append := append |}
    | None => None
    end.

(** The property name a step stands for on an object. *)
Definition key_name (s : key) : string :=
  match s with
  | Name k => k
  | Index n => Str.of_N n
  end.

(** A property name that is an array index: such properties are
    enumerated first, in ascending order, whenever they were created. *)
Definition array_index (k : string) : option N :=
  if Str.all Str.is_digit k && negb (String.eqb k "")
     && (String.eqb k "0" || negb (Str.starts_with "0" k))
     && (digits_value k <? 4294967295)%N
  then Some (digits_value k) else None.

Fixpoint replace_prop (k : string) (v : json) (l : list (string * json))
  : option (list (string * json)) :=
  match l with
  | [] => None
  | (k', x) :: r =>
      if String.eqb k k' then Some ((k', v) :: r)
      else option_map (cons (k', x)) (replace_prop k v r)
  end.

Fixpoint insert_index (n : N) (k : string) (v : json) (l : list (string * json))
  : list (string * json) :=
  match l with
  | [] => [(k, v)]
  | (k', x) :: r =>
      match array_index k' with
      | Some m => if (m <? n)%N then (k', x) :: insert_index n k v r else (k, v) :: l
      | None => (k, v) :: l
      end
  end.

(** [o[k] = v] on the properties of an object, in enumeration order. *)
Definition set_prop (k : string) (v : json) (l : list (string * json))
  : list (string * json) :=
  match replace_prop k v l with
  | Some l' => l'
  | None =>
      match array_index k with
      | Some n => insert_index n k v l
      | None => l ++ [(k, v)]
      end
  end.

(** [a[n] = v] on an array: a write past the end leaves holes. *)
Definition set_item (n : N) (v : json) (items : list json) : list json :=
  if (n <? N.of_nat (length items))%N then
    firstn (N.to_nat n) items ++ v :: skipn (S (N.to_nat n)) items
  else items ++ repeat JNull (N.to_nat n - length items) ++ [v].

(** [context[step.key]]; [None] is [undefined]. *)
Definition get (context : json) (s : key) : option json :=
  match context, s with
  | JObj fields, _ => assoc (key_name s) fields
  | JArr items, Index n =>
      match nth_error items (N.to_nat n) with
      | Some JNull => None
      | x => x
      end
  | _, _ => None
  end.

(** [context[step.key] = v]. *)
Definition put (context : json) (s : key) (v : json) : json :=
  match context, s with
  | JObj fields, _ => JObj (set_prop (key_name s) v fields)
  | JArr items, Index n => JArr (set_item n v items)
  | _, _ => context
  end.

(** [setLastValue] on an object that stands where the value belongs: the
    value goes to its property [''], by the same rules. *)
Fixpoint set_last_in (o : json) (v : string) : json :=
  match o with
  | JObj fields =>
      JObj ((fix go (l : list (string * json)) : list (string * json) :=
               match l with
               | [] => [(EmptyString, JStr v)]
               | (k, x) :: r =>
                   if String.eqb k "" then
                     (k, match x with
                         | JArr a => JArr (a ++ [JStr v])
                         | JObj _ => set_last_in x v
                         | _ => JArr [x; JStr v]
                         end) :: r
                   else (k, x) :: go r
               end) fields)
  | _ => o
  end.

(** [setLastValue(context, step, context[step.key], value)] *)
Definition setLastValue (context : json) (s : key) (append : bool) (v : string) : json :=
  match get context s with
  | None => put context s (if append then JArr [JStr v] else JStr v)
  | Some (JArr a) => put context s (JArr (a ++ [JStr v]))
  | Some (JObj o) => put context s (set_last_in (JObj o) v)
  | Some x => put context s (JArr [x; JStr v])
  end.

(** The properties [forEach] copies from an array turned into an object. *)
Fixpoint array_props (i : N) (items : list json) : list (string * json) :=
  match items with
  | [] => []
  | JNull :: r => array_props (i + 1) r
  | x :: r => (Str.of_N i, x) :: array_props (i + 1) r
  end.

(** [steps.reduce(setValue, store)]: [setValue] on a step that is not the
    last finds or makes the container for the next step, which the rest of
    the path then fills. *)
Fixpoint setValue (context : json) (s : key) (rest : list key) (append : bool)
    (v : string) : json :=
  match rest with
  | [] => setLastValue context s append v
  | s' :: rest' =>
      let next_is_array := match s' with Index _ => true | Name _ => false end in
      let inner :=
        match get context s with
        | None => if next_is_array then JArr [] else JObj []
        | Some (JObj o) => JObj o
        | Some (JArr a) => if next_is_array then JArr a else JObj (array_props 0 a)
        | Some x => JObj [(EmptyString, x)]
        end in
      put context s (setValue inner s' rest' append v)
  end.

(** [appendField(store, key, value)] *)
Definition appendField (store : json) (k v : string) : json :=
  match parsePath k with
  | None => setLastValue store (Name k) false v
  | Some p => setValue store (Name (p_first p)) (p_steps p) (p_append p) v
  end.

End AppendField.

(** ** Errors thrown or forwarded inside the server *)

Inductive errno : Type := ENOENT | EISDIR | ENOTDIR.

Inductive multer_code : Type := LIMIT_FILE_SIZE | LIMIT_UNEXPECTED_FILE.

Inductive js_error : Type :=
| PlainError (message : string)                       (* [new Error(message)] *)
| TypeError (message : string)
| SystemError (code : errno) (syscall target : string) (* thrown by [fs] *)
| MulterError (code : multer_code) (field : string)
| BodyParserError (message : string).

Definition errno_text (e : errno) : string :=
  match e with
  | ENOENT => "ENOENT: no such file or directory"
  | EISDIR => "EISDIR: illegal operation on a directory"
  | ENOTDIR => "ENOTDIR: not a directory"
  end.

(** [error.message]. *)
Definition error_message (e : js_error) : string :=
  match e with
  | PlainError m => m
  | TypeError m => m
  | SystemError c sc t => errno_text c +:+ ", " +:+ sc +:+ " '" +:+ t +:+ "'"
  | MulterError LIMIT_FILE_SIZE _ => "File too large"
  | MulterError LIMIT_UNEXPECTED_FILE _ => "Unexpected field"
  | BodyParserError m => m
  end.

(** The outcome of a call that may throw. *)
Inductive result (A : Type) : Type :=
| Ok (a : A)
| Throw (e : js_error).
Arguments Ok {A} a.
Arguments Throw {A} e.

(** ** Paths ([path.join] on POSIX)

    An absolute, normalised path is the list of its segments below the
    root, with a flag recording a trailing separator (which [path.join]
    preserves).  [__dirname] and every result of [join] have this form. *)

Module Path.

Record t : Type := mk { segments : list string; trailing_sep : bool }.

Definition of_segments (l : list string) : t := mk l false.

(** One step of the normalisation of an absolute path: empty and "."
    segments vanish, ".." drops the last segment (and stays at the root). *)
Definition walk (stack : list string) (seg : string) : list string :=
  if String.eqb seg "" || String.eqb seg "." then stack
  else if String.eqb seg ".." then removelast stack
  else stack ++ [seg].

(** [path.join(base, rel)] for an absolute normalised [base]. *)
Definition join (base : t) (rel : string) : t :=
  mk (fold_left walk (Str.split_on "/" rel) (segments base))
     (if String.eqb rel "" then trailing_sep base else Str.ends_with_char "/" rel).

(** One step of the normalisation of a relative path: ".." is kept when
    there is nothing left to drop. *)
Definition walk_rel (stack : list string) (seg : string) : list string :=
  if String.eqb seg "" || String.eqb seg "." then stack
  else if String.eqb seg ".." then
    match last stack with
    | None => [".."]
    | Some top => if String.eqb top ".." then stack ++ [".."] else removelast stack
    end
  else stack ++ [seg].

(** The segments of [path.normalize('./' + p)]. *)
Definition normalize_rel (p : string) : list string :=
  fold_left walk_rel (Str.split_on "/" p) [].

Definition render (p : t) : string :=
  "/" +:+ Str.join "/" (segments p)
      +:+ (if trailing_sep p && negb (bool_decide (segments p = [])) then "/" else "").

(** [p] lies strictly below the directory [root]. *)
Definition inside (root : list string) (p : list string) : Prop :=
  exists rest, rest <> [] /\ p = root ++ rest.

End Path.

(** ** The file system *)

Inductive node : Type :=
| File (data : list byte)
| Dir.

(** A file-system state maps every existing absolute path to its node.  The
    root directory always exists.  The states of interest are trees: the
    parent of every node is a directory. *)
Abbreviation fs_state := (gmap (list string) node).

Record stats : Type := { st_size : N; st_isDirectory : bool }.

Module Fs.

Definition node_at (fs : fs_state) (segs : list string) : option node :=
  match segs with
  | [] => Some Dir
  | _ => fs !! segs
  end.

Definition has_nul (p : Path.t) : bool :=
  existsb (Str.contains "000"%char) (Path.segments p).

Definition nul_error : js_error :=
  TypeError "The argument 'path' must be a string, Uint8Array, or URL without null bytes.".

(** Opening [p] for writing (create or truncate): the outcome of
    [open(2)] with [O_WRONLY|O_CREAT|O_TRUNC]. *)
Definition open_w (fs : fs_state) (p : Path.t) : option js_error :=
  let fail c := Some (SystemError c "open" (Path.render p)) in
  if has_nul p then Some nul_error
  else match node_at fs (Path.segments p) with
       | Some Dir => fail EISDIR
       | Some (File _) => if Path.trailing_sep p then fail ENOTDIR else None
       | None =>
           if Path.trailing_sep p then fail EISDIR
           else match node_at fs (removelast (Path.segments p)) with
                | Some Dir => None
                | Some (File _) => fail ENOTDIR
                | None => fail ENOENT
                end
       end.

(** [fs.writeFileSync(p, data)]: throws, or replaces the file's content.
    The disk is taken to be sound and the server to be its only user: a
    file that could be opened is written in full, and nothing changes
    between two calls of one handler.  A write cut short by a full or failing
    disk, or a file removed by another process before it is looked at again,
    is outside this model. *)
Definition writeFileSync (fs : fs_state) (p : Path.t) (data : list byte)
  : result fs_state :=
  match open_w fs p with
  | Some e => Throw e
  | None => Ok (<[Path.segments p := File data]> fs)
  end.

(** [fs.statSync(p)].  The size reported for a directory is that of one
    block. *)
Definition statSync (fs : fs_state) (p : Path.t) : result stats :=
  let fail c := Throw (SystemError c "stat" (Path.render p)) in
  if has_nul p then Throw nul_error
  else match node_at fs (Path.segments p) with
       | Some (File data) =>
           if Path.trailing_sep p then fail ENOTDIR
           else Ok {| st_size := N.of_nat (length data); st_isDirectory := false |}
       | Some Dir => Ok {| st_size := 4096%N; st_isDirectory := true |}
       | None => fail ENOENT
       end.

(** The bytes a read stream opened on [p] delivers. *)
Definition read (fs : fs_state) (p : Path.t) : option (list byte) :=
  match node_at fs (Path.segments p) with
  | Some (File data) => Some data
  | _ => None
  end.

(** [fs.existsSync(p)]. *)
Definition existsSync (fs : fs_state) (p : Path.t) : bool :=
  match statSync fs p with Ok _ => true | Throw _ => false end.

(** [fs.unlink(p)] on an uploaded file; a failure is ignored by the caller. *)
Definition unlink (fs : fs_state) (p : Path.t) : fs_state :=
  match node_at fs (Path.segments p) with
  | Some (File _) => delete (Path.segments p) fs
  | _ => fs
  end.

(** [fs.mkdirSync(p, { recursive: true })]: creates the missing
    directories from [done] downwards; a file in the way throws. *)
Fixpoint mkdir_from (fs : fs_state) (done rest : list string) : result fs_state :=
  match rest with
  | [] => Ok fs
  | s :: rest' =>
      let here := done ++ [s] in
      match node_at fs here with
      | Some Dir => mkdir_from fs here rest'
      | Some (File _) =>
          Throw (SystemError ENOTDIR "mkdir" (Path.render (Path.of_segments here)))
      | None => mkdir_from (<[here := Dir]> fs) here rest'
      end
  end.

Definition mkdirSync_recursive (fs : fs_state) (p : Path.t) : result fs_state :=
  mkdir_from fs [] (Path.segments p).

End Fs.

(** ** Node's base64 decoder

    [Buffer] decoding with encoding ['base64'] never throws: characters
    outside the alphabet (standard or URL-safe) are skipped, decoding stops
    at the first ['='], and a dangling final sextet is dropped. *)

Module Base64.

Definition unbase64 (c : ascii) : option N :=
  let n := N_of_ascii c in
  if Str.is_upper c then Some (n - 65)%N
  else if Str.is_lower c then Some (n - 97 + 26)%N
  else if Str.is_digit c then Some (n - 48 + 52)%N
  else if Ascii.eqb c "+" || Ascii.eqb c "-" then Some 62%N
  else if Ascii.eqb c "/" || Ascii.eqb c "_" then Some 63%N
  else None.

Fixpoint sextets (s : string) : list N :=
  match s with
  | EmptyString => []
  | String c r =>
      if Ascii.eqb c "=" then []
      else match unbase64 c with
           | Some v => v :: sextets r
           | None => sextets r
           end
  end.

Definition byte_of (n : N) : byte :=
  match Byte.of_N (n mod 256)%N with
  | Some b => b
  | None => x00
  end.

Fixpoint bytes_of_sextets (l : list N) : list byte :=
  match l with
  | a :: b :: c :: d :: rest =>
      byte_of (N.lor (N.shiftl a 2%N) (N.shiftr b 4%N))
      :: byte_of (N.lor (N.shiftl (N.land b 15%N) 4%N) (N.shiftr c 2%N))
      :: byte_of (N.lor (N.shiftl (N.land c 3%N) 6%N) d)
      :: bytes_of_sextets rest
  | [a; b; c] =>
      [byte_of (N.lor (N.shiftl a 2%N) (N.shiftr b 4%N));
       byte_of (N.lor (N.shiftl (N.land b 15%N) 4%N) (N.shiftr c 2%N))]
  | [a; b] => [byte_of (N.lor (N.shiftl a 2%N) (N.shiftr b 4%N))]
  | _ => []
  end.

Definition decode (s : string) : list byte := bytes_of_sextets (sextets s).

(** A base64 payload: text over the standard alphabet and padding. *)
Definition alphabet_char (c : ascii) : bool :=
  Str.is_upper c || Str.is_lower c || Str.is_digit c
  || Ascii.eqb c "+" || Ascii.eqb c "/" || Ascii.eqb c "=".

Definition is_payload (s : string) : bool := Str.all alphabet_char s.

End Base64.

(** ** The data-URL prefix: [image.replace(/^data:image\/[a-z]+;base64,/, '')]

    The pattern is anchored; [[a-z]+] is followed by [';'], which is not a
    letter, so the longest run of letters is the only candidate match. *)
Definition strip_data_url_prefix (image : string) : string :=
  match Str.drop_prefix "data:image/" image with
  | Some (String c _ as r) =>
      if Str.is_lower c then
        match Str.drop_prefix ";base64," (Str.drop_while Str.is_lower r) with
        | Some rest => rest
        | None => image
        end
      else image
  | _ => image
  end.

(** ** URL helpers *)

Module Url.

(** The path component of a request target: the text before ['?'] (or
    ['#']). *)
Definition pathname (url : string) : string :=
  Str.take_until (fun c => Ascii.eqb c "?" || Ascii.eqb c "#") url.

Definition hex_digit (c : ascii) : option N :=
  let n := N_of_ascii c in
  if Str.is_digit c then Some (n - 48)%N
  else if Str.between "a" "f" c then Some (n - 97 + 10)%N
  else if Str.between "A" "F" c then Some (n - 65 + 10)%N
  else None.

(** [decodeURIComponent] on the bytes of a path: [%XX] escapes are
    replaced; a malformed escape fails.  (The library also fails on escapes
    that do not form UTF-8; such names do not resolve to a stored file
    either way.) *)
Fixpoint decode (s : string) : option string :=
  match s with
  | EmptyString => Some EmptyString
  | String c r =>
      if Ascii.eqb c "%" then
        match r with
        | String h (String l r') =>
            match hex_digit h, hex_digit l, decode r' with
            | Some a, Some b, Some t => Some (String (ascii_of_N (16 * a + b)%N) t)
            | _, _, _ => None
            end
        | _ => None
        end
      else option_map (String c) (decode r)
  end.

End Url.

(** ** [Date.prototype.toISOString] for a time in milliseconds since the epoch *)

Module Date.

(** Civil date of a day count since 1970-01-01 (proleptic Gregorian). *)
Definition civil_from_days (days : N) : N * N * N :=
  let z := (days + 719468)%N in
  let era := (z / 146097)%N in
  let doe := (z mod 146097)%N in
  let yoe := ((doe - doe / 1460 + doe / 36524 - doe / 146096) / 365)%N in
  let doy := (doe - (365 * yoe + yoe / 4 - yoe / 100))%N in
  let mp := ((5 * doy + 2) / 153)%N in
  let d := (doy - (153 * mp + 2) / 5 + 1)%N in
  let m := (if mp <? 10 then mp + 3 else mp - 9)%N in
  let y := (yoe + era * 400 + (if m <=? 2 then 1 else 0))%N in
  (y, m, d).

Definition toISOString (ms : N) : string :=
  let '(y, m, d) := civil_from_days (ms / 86400000)%N in
  let t := (ms mod 86400000)%N in
  let f w n := Str.pad0 w (Str.of_N n) in
  f 4%nat y +:+ "-" +:+ f 2%nat m +:+ "-" +:+ f 2%nat d +:+ "T"
    +:+ f 2%nat (t / 3600000)%N +:+ ":" +:+ f 2%nat (t / 60000 mod 60)%N +:+ ":"
    +:+ f 2%nat (t / 1000 mod 60)%N +:+ "." +:+ f 3%nat (t mod 1000)%N +:+ "Z".

End Date.

(** ** HTTP requests and responses *)

Inductive http_method : Type := GET | HEAD | POST | PUT | PATCH | DELETE | OPTIONS.

(** One part of a multipart body, as the parser hands it to multer.  Text
    fields are within the parser's default limits on names and values. *)
Inductive part : Type :=
| Field (name value : string)
| FilePart (fieldname originalname mimetype : string) (content : list byte).

(** The body of a request, by what the body middleware makes of it. *)
Inductive payload : Type :=
| NoPayload                       (* no body, or a type no parser handles *)
| Parsed (body : json)            (* JSON or urlencoded, accepted and parsed *)
| Rejected (message : string)     (* a parser fails: malformed or over 10mb *)
| Multipart (parts : list part).  (* multipart/form-data *)

Record request : Type := {
  method : http_method;
  url : string;
  headers : list (string * string);
  payload_of : payload
}.

Inductive resp_body : Type :=
| JsonBody (j : json)
| FileBody (data : list byte)
| EmptyBody.

Record response : Type := {
  status : N;
  resp_headers : list (string * string);
  body : resp_body
}.

(** [res.status(code).json(j)]. *)
Definition res_json (code : N) (j : json) : response :=
  {| status := code; resp_headers := []; body := JsonBody j |}.

(** [res.set(k, v)]. *)
Definition res_set (k v : string) (r : response) : response :=
  {| status := status r;
     resp_headers := (k, v) :: filter (fun kv => negb (String.eqb (fst kv) k)) (resp_headers r);
     body := body r |}.

(** [req.headers] as the object echoed by a handler. *)
Definition headers_json (req : request) : json :=
  JObj (map (fun kv => (fst kv, JStr (snd kv))) (headers req)).

(** *** Route matching (Express 4: case-insensitive, optional trailing slash) *)

Definition path_matches (pattern p : string) : bool :=
  let q := Str.lower p in
  String.eqb q pattern
  || (negb (String.eqb pattern "/") && String.eqb q (pattern +:+ "/")).

(** [app.get] also answers HEAD. *)
Definition method_matches (m : http_method) (req : request) : bool :=
  match m, method req with
  | GET, GET | GET, HEAD | POST, POST => true
  | _, _ => false
  end.

Definition route_matches (m : http_method) (pattern : string) (req : request) : bool :=
  method_matches m req && path_matches pattern (Url.pathname (url req)).

(** [app.use(mount, ...)]: the path below the mount point, when the request
    path is the mount point or lies under it. *)
Definition below_mount (mount p : string) : option string :=
  match Str.drop_prefix mount (Str.lower (String.substring 0 (String.length mount) p)) with
  | Some EmptyString =>
      let rest := String.substring (String.length mount) (String.length p) p in
      match rest with
      | EmptyString => Some rest
      | String c _ => if Ascii.eqb c "/" then Some rest else None
      end
  | _ => None
  end.

(** ** multer: the multipart middleware with disk storage *)

Record file_info : Type := {
  fi_fieldname : string;
  fi_originalname : string;
  fi_mimetype : string
}.

(** [req.file]: the descriptor completed by the disk storage. *)
Record uploaded : Type := {
  up_info : file_info;
  up_destination : Path.t;
  up_filename : string;
  up_path : Path.t;
  up_size : N
}.

Record disk_storage : Type := {
  destination : Path.t;
  filename : N -> string   (* reads the clock *)
}.

Record multer_options : Type := {
  storage_of : disk_storage;
  limits_fileSize : N;
  fileFilter_of : file_info -> result bool
}.

Module Multer.

(** On failure the files stored so far are removed again. *)
Definition remove_uploaded (files : list uploaded) (fs : fs_state) : fs_state :=
  fold_left (fun fs f => Fs.unlink fs (up_path f)) files fs.

Definition abort {A : Type} (e : js_error) (files : list uploaded) (fs : fs_state)
  : result A * fs_state :=
  (Throw e, remove_uploaded files fs).

(** The parts of one request, in order.  [left] is the number of files the
    field [name] may still receive; [body] and [files] accumulate
    [req.body] and the stored files.  A text field is added to [req.body] by
    [appendField].  A file part without a file name is drained and ignored.
    A file in another field, or one too many, is [LIMIT_UNEXPECTED_FILE];
    then the filter decides; then the file is streamed to
    [destination/filename].  The parser counts the bytes it passes on and
    stops at [limits_fileSize]: a file that reaches the limit, also one of
    exactly that size, is [LIMIT_FILE_SIZE], with what was written of it
    removed again. *)
Fixpoint run (appendField : json -> string -> string -> json)
    (opts : multer_options) (name : string) (now : N)
    (parts : list part) (left : nat)
    (body : json) (files : list uploaded) (fs : fs_state)
  : result (json * list uploaded) * fs_state :=
  match parts with
  | [] => (Ok (body, files), fs)
  | Field k v :: rest =>
      run appendField opts name now rest left (appendField body k v) files fs
  | FilePart fname oname mime content :: rest =>
      if String.eqb oname "" then run appendField opts name now rest left body files fs
      else if negb (String.eqb fname name) || Nat.eqb left 0 then
        abort (MulterError LIMIT_UNEXPECTED_FILE fname) files fs
      else
        let info := {| fi_fieldname := fname; fi_originalname := oname;
                       fi_mimetype := mime |} in
        match fileFilter_of opts info with
        | Throw e => abort e files fs
        | Ok false => run appendField opts name now rest (left - 1) body files fs
        | Ok true =>
            let dest := destination (storage_of opts) in
            let fn := filename (storage_of opts) now in
            let p := Path.join dest fn in
            let stored (data : list byte) :=
              {| up_info := info; up_destination := dest; up_filename := fn;
                 up_path := p; up_size := N.of_nat (length data) |} in
            let limit := limits_fileSize opts in
            if (limit <=? N.of_nat (length content))%N then
              let data := firstn (N.to_nat limit) content in
              match Fs.writeFileSync fs p data with
              | Throw e => abort e files fs
              | Ok fs1 =>
                  abort (MulterError LIMIT_FILE_SIZE fname) (files ++ [stored data]) fs1
              end
            else
              match Fs.writeFileSync fs p content with
              | Throw e => abort e files fs
              | Ok fs1 =>
                  run appendField opts name now rest (left - 1) body
                      (files ++ [stored content]) fs1
              end
        end
  end.

(** [multer(opts).single(name)]: a request that is not multipart passes
    through untouched; otherwise [req.body] is the object built from the
    text fields, starting from the empty object, and [req.file] the stored
    file, if any. *)
Definition single (appendField : json -> string -> string -> json)
    (opts : multer_options) (name : string)
    (fs : fs_state) (now : N) (req : request) (body : json)
  : result (option uploaded * json) * fs_state :=
  match payload_of req with
  | Multipart parts =>
      match run appendField opts name now parts 1 (JObj []) [] fs with
      | (Ok (body', files), fs') => (Ok (head files, body'), fs')
      | (Throw e, fs') => (Throw e, fs')
      end
  | _ => (Ok (None, body), fs)
  end.

End Multer.

(** ** The static file route ([express.static], with fall-through)

    [None] stands for [next()]: every failure before a file is found (bad
    escape, a path leaving the root, an ignored dot file, a missing file)
    passes the request on.  Requests are taken to carry no range or
    conditional headers. *)

Module Static.

Definition is_dotfile (seg : string) : bool :=
  Str.starts_with "." seg && Nat.ltb 1 (String.length seg).

(** The default dot-file policy: a path with a dot segment is ignored
    when its last part starts with a dot. *)
Definition dot_ignored (parts : list string) (trailing : bool) : bool :=
  existsb is_dotfile parts
  && negb trailing
  && match last parts with
     | Some l => Str.starts_with "." l
     | None => false
     end.

Inductive outcome : Type :=
| Next
| SendFile (data : list byte)
| Redirect.

(** [send(req, p, { root })]: [p] is the request path below the mount
    point, still percent-encoded.  A path written with a trailing slash asks
    for the directory's [index.html]. *)
Definition send (fs : fs_state) (root : Path.t) (p : string) : outcome :=
  match Url.decode p with
  | None => Next
  | Some d =>
      if Str.contains "000"%char d then Next
      else
        let parts := Path.normalize_rel d in
        let trailing := Str.ends_with_char "/" d in
        if existsb (String.eqb "..") parts then Next
        else if dot_ignored parts trailing then Next
        else
          let target := Path.mk (Path.segments root ++ parts) trailing in
          if Str.ends_with_char "/" p then
            match Fs.statSync fs (Path.join target "index.html") with
            | Ok st =>
                if st_isDirectory st then Next
                else match Fs.read fs (Path.join target "index.html") with
                     | Some data => SendFile data
                     | None => Next
                     end
            | Throw _ => Next
            end
          else
            match Fs.statSync fs target with
            | Ok st =>
                if st_isDirectory st then Redirect
                else match Fs.read fs target with
                     | Some data => SendFile data
                     | None => Next
                     end
            | Throw _ => Next
            end
  end.

End Static.

(** * A concrete installation

    The server installed in [/srv/api-server], and the requests and payloads
    used in the concrete runs at the end. *)

Definition site : list string := ["srv"; "api-server"].

(** The disk right after the first start: the installation directory and
    its [uploads] directory, nothing else. *)
Definition fresh : fs_state :=
  <[ ["srv"; "api-server"; "uploads"] := Dir ]>
    (<[ ["srv"; "api-server"] := Dir ]> (<[ ["srv"] := Dir ]> ∅)).

Definition post (u : string) (p : payload) : request :=
  {| method := POST; url := u;
     headers := [("host", "localhost:8081"); ("accept", "application/json")];
     payload_of := p |}.

Definition png_bytes : list byte := [x89; x50; x4e; x47; x0d; x0a; x1a; x0a].

(** A payload of 10 MiB and one byte. *)
Definition oversized : list byte := repeat x00 (N.to_nat (10 * 1024 * 1024 + 1)).

(** A payload of exactly 10 MiB. *)
Definition at_limit : list byte := repeat x00 (N.to_nat (10 * 1024 * 1024)).

(** * The server ([server.js]) *)

Section Server.

(** The directory of [server.js], as the segments of its absolute path. *)
Variable __dirname : list string.

(** The function multer adds a text field to [req.body] with (the
    [append-field] package; [AppendField.appendField] above).  The server
    passes the body on as multer built it, so its properties hold whatever
    this function computes. *)
Variable appendField : json -> string -> string -> json.

(** [const uploadsDir = path.join(__dirname, 'uploads')] *)
Definition uploadsDir : Path.t := Path.join (Path.of_segments __dirname) "uploads".

(** Startup: the uploads directory is created if it doesn't exist. *)
Definition startup (fs : fs_state) : result fs_state :=
  if negb (Fs.existsSync fs uploadsDir) then Fs.mkdirSync_recursive fs uploadsDir
  else Ok fs.

(** [multer.diskStorage({ destination, filename })] *)
Definition storage : disk_storage :=
  {| destination := uploadsDir;
     filename := fun timestamp => "screenshot-" +:+ Str.of_N timestamp +:+ ".png" |}.

(** [multer({ storage, limits: { fileSize }, fileFilter })] *)
Definition upload : multer_options :=
  {| storage_of := storage;
     limits_fileSize := 10 * 1024 * 1024;
     fileFilter_of := fun file =>
       if Str.starts_with "image/" (fi_mimetype file) then Ok true
       else Throw (PlainError "Only image files are allowed") |}.

(** [cors({ origin: '*', methods, allowedHeaders, credentials: false })]:
    a preflight request is answered at once; any other response carries
    the allow-origin header. *)
Definition cors_preflight : response :=
  {| status := 204;
     resp_headers := [("Access-Control-Allow-Origin", "*");
                      ("Access-Control-Allow-Methods", "GET,POST,OPTIONS");
                      ("Access-Control-Allow-Headers", "Content-Type,Authorization");
                      ("Content-Length", "0")];
     body := EmptyBody |}.

(** [express.json] and [express.urlencoded]: the value of [req.body], or
    the parser's error.  A request these parsers do not handle keeps the
    default empty object (Express 4). *)
Definition body_parsers (req : request) : result json :=
  match payload_of req with
  | Parsed b => Ok b
  | Rejected message => Throw (BodyParserError message)
  | NoPayload | Multipart _ => Ok (JObj [])
  end.

(** [app.use('/uploads', express.static(uploadsDir, { setHeaders }))] *)
Definition serve_uploads (fs : fs_state) (req : request) : option response :=
  match method req with
  | GET | HEAD =>
      match below_mount "/uploads" (Url.pathname (url req)) with
      | None => None
      | Some rest =>
          match Static.send fs uploadsDir rest with
          | Static.Next => None
          | Static.SendFile data =>
              Some (res_set "Cross-Origin-Resource-Policy" "cross-origin"
                     (res_set "Access-Control-Allow-Origin" "*"
                       {| status := 200; resp_headers := []; body := FileBody data |}))
          | Static.Redirect =>
              Some {| status := 301;
                      resp_headers := [("Location", Url.pathname (url req) +:+ "/")];
                      body := EmptyBody |}
          end
      end
  | _ => None
  end.

(** [app.get('/', ...)] *)
Definition root_handler (now : N) : response :=
  res_json 200 (JObj [("status", JStr "Web Audit API Server is running");
                      ("timestamp", JStr (Date.toISOString now));
                      ("uploadsDir", JStr (Path.render uploadsDir))]).

(** [app.get('/api/health', ...)] *)
Definition health_handler (now : N) : response :=
  res_json 200 (JObj [("status", JStr "healthy");
                      ("timestamp", JStr (Date.toISOString now))]).

Definition success_response (name : string) (size : N) : response :=
  res_json 200 (JObj [("success", JBool true);
                      ("filename", JStr name);
                      ("message", JStr "Screenshot uploaded successfully");
                      ("url", JStr ("/uploads/" +:+ name));
                      ("size", JNum (Z.of_N size))]).

Definition internal_error (e : js_error) : response :=
  res_json 500 (JObj [("success", JBool false);
                      ("error", JStr "Internal server error");
                      ("message", JStr (error_message e))]).

(** [app.post('/api/screenshot', upload.single('screenshot'), ...)]: the
    handler proper, run after multer succeeded.  Nothing inside its [try]
    block throws. *)
Definition screenshot_handler (req : request) (file : option uploaded) (body : json)
  : response :=
  match file with
  | None =>
      res_json 400 (JObj [("success", JBool false);
                          ("error", JStr "No file received");
                          ("received", JObj [("body", body);
                                             ("headers", headers_json req)])])
  | Some f => success_response (up_filename f) (up_size f)
  end.

(** [image.replace(...)]: only a string has the method. *)
Definition replace_prefix (image : option json) : result string :=
  match image with
  | Some (JStr s) => Ok (strip_data_url_prefix s)
  | _ => Throw (TypeError "image.replace is not a function")
  end.

(** [filename || `screenshot-${timestamp}.png`] *)
Definition final_filename (filename : option json) (timestamp : N) : json :=
  match filename with
  | Some v => if truthy filename then v
              else JStr ("screenshot-" +:+ Str.of_N timestamp +:+ ".png")
  | None => JStr ("screenshot-" +:+ Str.of_N timestamp +:+ ".png")
  end.

(** [path.join(uploadsDir, finalFilename)]: throws unless every argument
    is a string. *)
Definition join_uploads (finalFilename : json) : result (string * Path.t) :=
  match finalFilename with
  | JStr name => Ok (name, Path.join uploadsDir name)
  | _ => Throw (TypeError "The path argument must be of type string")
  end.

(** [app.post('/api/screenshot/base64', ...)] *)
Definition base64_handler (fs : fs_state) (now : N) (body : json)
  : response * fs_state :=
  let image := prop "image" body in
  let filename := prop "filename" body in
  if negb (truthy image) then
    (res_json 400 (JObj [("success", JBool false);
                         ("error", JStr "No image data received")]), fs)
  else
    match replace_prefix image with
    | Throw e => (internal_error e, fs)
    | Ok base64Data =>
        let timestamp := now in
        let finalFilename := final_filename filename timestamp in
        match join_uploads finalFilename with
        | Throw e => (internal_error e, fs)
        | Ok (name, filepath) =>
            match Fs.writeFileSync fs filepath (Base64.decode base64Data) with
            | Throw e => (internal_error e, fs)
            | Ok fs1 =>
                match Fs.statSync fs1 filepath with
                | Throw e => (internal_error e, fs1)
                | Ok st => (success_response name (st_size st), fs1)
                end
            end
        end
    end.

(** The error-handling middleware. *)
Definition error_middleware (error : js_error) : response :=
  match error with
  | MulterError LIMIT_FILE_SIZE _ =>
      res_json 400 (JObj [("success", JBool false);
                          ("error", JStr "File too large");
                          ("message", JStr "File size should be less than 10MB")])
  | _ => internal_error error
  end.

(** The 404 handler. *)
Definition available_endpoints : list string :=
  ["GET /"; "GET /api/health"; "POST /api/screenshot";
   "POST /api/screenshot/base64"; "GET /uploads/:filename"].

Definition not_found : response :=
  res_json 404 (JObj [("success", JBool false);
                      ("error", JStr "Endpoint not found");
                      ("available_endpoints", JArr (map JStr available_endpoints))]).

(** The middleware chain after CORS and the body parsers, in the order of
    registration. *)
Definition routes (fs : fs_state) (now : N) (req : request) (body : json)
  : response * fs_state :=
  match serve_uploads fs req with
  | Some r => (r, fs)
  | None =>
      if route_matches GET "/" req then (root_handler now, fs)
      else if route_matches GET "/api/health" req then (health_handler now, fs)
      else if route_matches POST "/api/screenshot" req then
        match Multer.single appendField upload "screenshot" fs now req body with
        | (Ok (file, body'), fs') => (screenshot_handler req file body', fs')
        | (Throw e, fs') => (error_middleware e, fs')
        end
      else if route_matches POST "/api/screenshot/base64" req then
        base64_handler fs now body
      else (not_found, fs)
  end.

(** A response to HEAD is sent without its body. *)
Definition finish (req : request) (r : response) : response :=
  let r' := res_set "Access-Control-Allow-Origin" "*" r in
  match method req with
  | HEAD => {| status := status r'; resp_headers := resp_headers r'; body := EmptyBody |}
  | _ => r'
  end.

(** One request against the application: the response and the file
    system it leaves.  [now] is the reading of [Date.now()]. *)
Definition app (fs : fs_state) (now : N) (req : request) : response * fs_state :=
  match method req with
  | OPTIONS => (cors_preflight, fs)
  | _ =>
      match body_parsers req with
      | Throw e => (finish req (error_middleware e), fs)
      | Ok body =>
          let '(r, fs') := routes fs now req body in (finish req r, fs')
      end
  end.

(** ** Requests and responses named in the properties *)

(** A request that Express routes to the handler registered for [m] and
    [pattern]. *)
Definition routed_to (m : http_method) (pattern : string) (req : request) : Prop :=
  method req = m /\ path_matches pattern (Url.pathname (url req)) = true.

(** A plain GET of [u], as a client issues it for a URL it was given. *)
Definition get_request (u : string) : request :=
  {| method := GET; url := u; headers := []; payload_of := NoPayload |}.

(** The same request with another parsed body. *)
Definition with_body (req : request) (b : json) : request :=
  {| method := method req; url := url req; headers := headers req;
     payload_of := Parsed b |}.

(** The JSON success descriptor of an upload. *)
Definition descriptor (name : string) (size : nat) : json :=
  JObj [("success", JBool true);
        ("filename", JStr name);
        ("message", JStr "Screenshot uploaded successfully");
        ("url", JStr ("/uploads/" +:+ name));
        ("size", JNum (Z.of_nat size))].

(** The JSON failure envelope. *)
Definition envelope (error : string) (message : string) : json :=
  JObj [("success", JBool false); ("error", JStr error); ("message", JStr message)].

(** A multipart part that multer treats as a file. *)
Definition carries_file (p : part) : bool :=
  match p with
  | FilePart _ oname _ _ => negb (String.eqb oname "")
  | Field _ _ => false
  end.

Definition in_field (name : string) (p : part) : bool :=
  match p with
  | FilePart fname _ _ _ => carries_file p && String.eqb fname name
  | Field _ _ => false
  end.

(** [req.body] after the text fields among [parts] have been added to
    [body], in the order of the request. *)
Definition add_fields (body : json) (parts : list part) : json :=
  fold_left (fun b p => match p with
                        | Field k v => appendField b k v
                        | FilePart _ _ _ _ => b
                        end) parts body.

(** The body multer builds for a multipart request: its text fields, added
    one by one to the empty object. *)
Definition multipart_body (parts : list part) : json := add_fields (JObj []) parts.

(** A file name that is a single ordinary path segment and needs no
    escaping in a URL. *)
Definition plain_char (c : ascii) : bool :=
  Str.is_upper c || Str.is_lower c || Str.is_digit c
  || Ascii.eqb c "-" || Ascii.eqb c "_" || Ascii.eqb c ".".

Definition plain_name (s : string) : bool :=
  Str.all plain_char s && negb (String.eqb s "") && negb (Str.starts_with "." s).

(** The bytes a request uploads: the content of its first file, or the
    decoded [image]. *)
Definition uploaded_bytes (req : request) : option (list byte) :=
  match payload_of req with
  | Multipart parts =>
      match find carries_file parts with
      | Some (FilePart _ _ _ content) => Some content
      | _ => None
      end
  | Parsed b =>
      match prop "image" b with
      | Some (JStr s) => Some (Base64.decode (strip_data_url_prefix s))
      | _ => None
      end
  | _ => None
  end.

(** The file name the client asks for, if any, is plain. *)
Definition client_name_plain (req : request) : bool :=
  match payload_of req with
  | Parsed b =>
      match prop "filename" b with
      | Some (JStr f) => String.eqb f "" || plain_name f
      | _ => true
      end
  | _ => true
  end.

(** [without k fields]: the object with property [k] deleted. *)
Definition without (k : string) (fields : list (string * json)) : list (string * json) :=
  filter (fun kv => negb (String.eqb (fst kv) k)) fields.

(** [p] is an existing regular file holding [data]. *)
Definition holds_file (fs : fs_state) (p : Path.t) (data : list byte) : Prop :=
  Fs.has_nul p = false /\ Path.trailing_sep p = false
  /\ Path.segments p <> [] /\ fs !! Path.segments p = Some (File data).

(** The file an upload request leaves behind under the name its response
    reports, if any. *)
Definition stored_by (fs : fs_state) (now : N) (req : request) : option (list byte) :=
  let '(resp, fs') := app fs now req in
  match body resp with
  | JsonBody j =>
      match prop "filename" j with
      | Some (JStr name) => Fs.read fs' (Path.join uploadsDir name)
      | _ => None
      end
  | _ => None
  end.

(** A JSON body carrying [image] next to other properties. *)
Definition image_body (image : string) (rest : list (string * json)) : json :=
  JObj (("image", JStr image) :: rest).

(** Prefix stripping as the specification words it: the upload with the
    data-URL prefix stores what the upload without it stores. *)
Definition prefix_is_noop (fs : fs_state) (now : N) (req : request)
    (rest : list (string * json)) (P : string) : Prop :=
  stored_by fs now (with_body req (image_body ("data:image/png;base64," +:+ P) rest))
  = stored_by fs now (with_body req (image_body P rest)).

(** The reply to an upload without a file: HTTP 400, success=false, and
    the received body and headers echoed. *)
Definition no_file_reply (req : request) (received_body : json) (resp : response) : Prop :=
  status resp = 400%N
  /\ body resp = JsonBody (JObj [("success", JBool false);
                                 ("error", JStr "No file received");
                                 ("received", JObj [("body", received_body);
                                                    ("headers", headers_json req)])]).

(** The reply to an oversized upload. *)
Definition too_large_reply (resp : response) : Prop :=
  status resp = 400%N
  /\ body resp = JsonBody (envelope "File too large" "File size should be less than 10MB").

(** The response of the static route to a stored file. *)
Definition file_response (data : list byte) : response :=
  {| status := 200;
     resp_headers := [("Access-Control-Allow-Origin", "*");
                      ("Cross-Origin-Resource-Policy", "cross-origin")];
     body := FileBody data |}.

(** The round trip as the specification words it: a GET of the URL in the
    response returns the uploaded bytes. *)
Definition round_trips (fs' : fs_state) (resp : response) (data : list byte) : Prop :=
  forall j u now',
    body resp = JsonBody j ->
    prop "url" j = Some (JStr u) ->
    let r := fst (app fs' now' (get_request u)) in
    status r = 200%N /\ body r = FileBody data.

(** Some route of the application answers the request: one of the four
    handlers matches it, or the static route under /uploads serves it. *)
Definition handled (fs : fs_state) (req : request) : bool :=
  route_matches GET "/" req
  || route_matches GET "/api/health" req
  || route_matches POST "/api/screenshot" req
  || route_matches POST "/api/screenshot/base64" req
  || match serve_uploads fs req with Some _ => true | None => false end.

(** The reply of the 404 handler: HTTP 404, success=false and exactly the
    five documented endpoint strings. *)
Definition not_found_reply (resp : response) : Prop :=
  status resp = 404%N
  /\ body resp = JsonBody (JObj [("success", JBool false);
                                 ("error", JStr "Endpoint not found");
                                 ("available_endpoints",
                                  JArr [JStr "GET /"; JStr "GET /api/health";
                                        JStr "POST /api/screenshot";
                                        JStr "POST /api/screenshot/base64";
                                        JStr "GET /uploads/:filename"])]).

(** ** Routing lemmas *)

Lemma path_matches_cases pattern p :
  path_matches pattern p = true ->
  Str.lower p = pattern \/ Str.lower p = pattern +:+ "/".
Proof.
  unfold path_matches. intros H.
  apply orb_true_iff in H as [H | H].
  - left. by apply String.eqb_eq.
  - right. apply andb_true_iff in H as [_ H]. by apply String.eqb_eq.
Qed.

Lemma routes_base64 fs now req body :
  routed_to POST "/api/screenshot/base64" req ->
  routes fs now req body = base64_handler fs now body.
Proof.
  intros [Hm Hp]. unfold routes, serve_uploads, route_matches, method_matches.
  rewrite Hm. cbn [andb].
  destruct (path_matches_cases _ _ Hp) as [E | E];
    unfold path_matches at 1; rewrite E; cbn; unfold path_matches; rewrite E; reflexivity.
Qed.

Lemma routes_screenshot fs now req body :
  routed_to POST "/api/screenshot" req ->
  routes fs now req body =
    match Multer.single appendField upload "screenshot" fs now req body with
    | (Ok (file, body'), fs') => (screenshot_handler req file body', fs')
    | (Throw e, fs') => (error_middleware e, fs')
    end.
Proof.
  intros [Hm Hp]. unfold routes, serve_uploads, route_matches, method_matches.
  rewrite Hm. cbn [andb].
  destruct (path_matches_cases _ _ Hp) as [E | E];
    unfold path_matches at 1; rewrite E; reflexivity.
Qed.

Lemma finish_post req r :
  method req = POST ->
  finish req r = res_set "Access-Control-Allow-Origin" "*" r.
Proof. intros H. unfold finish. by rewrite H. Qed.

Lemma app_post fs now req body :
  method req = POST ->
  body_parsers req = Ok body ->
  app fs now req =
    (res_set "Access-Control-Allow-Origin" "*" (fst (routes fs now req body)),
     snd (routes fs now req body)).
Proof.
  intros Hm Hb. unfold app. rewrite Hm, Hb.
  destruct (routes fs now req body) as [r fs'].
  by rewrite finish_post.
Qed.

Lemma status_finish req r : status (finish req r) = status r.
Proof. unfold finish. by destruct (method req). Qed.

(** ** File-system lemmas *)

Lemma write_ok fs p data fs1 :
  Fs.writeFileSync fs p data = Ok fs1 ->
  fs1 = <[Path.segments p := File data]> fs /\ holds_file fs1 p data.
Proof.
  unfold Fs.writeFileSync, Fs.open_w. intros H.
  destruct (Fs.has_nul p) eqn:Hn; [discriminate|].
  assert (Path.segments p <> [] /\ Path.trailing_sep p = false) as [Hs Ht].
  { destruct (Path.segments p) eqn:Es; [simpl in H; discriminate|].
    split; [done|].
    destruct (Path.trailing_sep p); [|done].
    destruct (Fs.node_at fs (s :: l)) as [[?|]|]; discriminate. }
  assert (fs1 = <[Path.segments p := File data]> fs) as ->.
  { repeat case_match; congruence. }
  repeat split; auto. apply lookup_insert_eq.
Qed.

Lemma node_at_holds fs p data :
  holds_file fs p data -> Fs.node_at fs (Path.segments p) = Some (File data).
Proof.
  intros (_ & _ & Hs & Hl). unfold Fs.node_at.
  destruct (Path.segments p); [done | exact Hl].
Qed.

Lemma stat_holds fs p data :
  holds_file fs p data ->
  Fs.statSync fs p = Ok {| st_size := N.of_nat (length data); st_isDirectory := false |}.
Proof.
  intros H. unfold Fs.statSync. rewrite (node_at_holds _ _ _ H).
  destruct H as (-> & -> & _). reflexivity.
Qed.

Lemma read_holds fs p data : holds_file fs p data -> Fs.read fs p = Some data.
Proof. intros H. unfold Fs.read. by rewrite (node_at_holds _ _ _ H). Qed.

Lemma success_descriptor name (data : list byte) :
  success_response name (N.of_nat (length data)) = res_json 200 (descriptor name (length data)).
Proof. unfold success_response, descriptor. by rewrite nat_N_Z. Qed.

(** ** The base64 handler on a string image *)

Lemma truthy_string s : s <> "" -> truthy (Some (JStr s)) = true.
Proof.
  intros H. simpl. destruct (String.eqb s "") eqn:E; [|done].
  by apply String.eqb_eq in E.
Qed.

Lemma base64_handler_string fs now body s name :
  prop "image" body = Some (JStr s) -> s <> "" ->
  final_filename (prop "filename" body) now = JStr name ->
  base64_handler fs now body =
    match Fs.writeFileSync fs (Path.join uploadsDir name)
                           (Base64.decode (strip_data_url_prefix s)) with
    | Ok fs1 =>
        (res_json 200 (descriptor name
                         (length (Base64.decode (strip_data_url_prefix s)))), fs1)
    | Throw e => (internal_error e, fs)
    end.
Proof.
  intros Hi Hs Hf. unfold base64_handler.
  rewrite Hi, (truthy_string _ Hs). cbn [negb replace_prefix].
  rewrite Hf. cbn [join_uploads].
  destruct (Fs.writeFileSync _ _ _) as [fs1|e] eqn:W; [|done].
  apply write_ok in W as [_ W].
  by rewrite (stat_holds _ _ _ W), <- success_descriptor.
Qed.

Lemma base64_handler_falsy fs now body :
  truthy (prop "image" body) = false ->
  base64_handler fs now body =
    (res_json 400 (JObj [("success", JBool false);
                         ("error", JStr "No image data received")]), fs).
Proof. intros H. unfold base64_handler. by rewrite H. Qed.

Lemma assoc_without {A} k (fields : list (string * A)) :
  assoc k (filter (fun kv => negb (String.eqb (fst kv) k)) fields) = None.
Proof.
  induction fields as [|[k' v] l IH]; [done|].
  cbn [filter list_filter]. unfold filter in *. simpl.
  destruct (String.eqb k' k) eqn:E; simpl.
  - exact IH.
  - rewrite String.eqb_sym, E. exact IH.
Qed.

(** ** Strings without a given character, and plain names *)

Lemma all_impl (f g : ascii -> bool) s :
  (forall c, f c = true -> g c = true) -> Str.all f s = true -> Str.all g s = true.
Proof.
  intros Hfg. induction s as [|c r IH]; [done|]. simpl.
  intros [Hc Hr]%andb_true_iff. rewrite (Hfg _ Hc). by apply IH.
Qed.

Lemma contains_false_of_all (f : ascii -> bool) (x : ascii) s :
  f x = false -> Str.all f s = true -> Str.contains x s = false.
Proof.
  intros Hx Hs. unfold Str.contains. apply negb_false_iff.
  apply (all_impl f); [|done].
  intros c Hc. apply negb_true_iff. destruct (Ascii.eqb c x) eqn:E; [|done].
  apply Ascii.eqb_eq in E. congruence.
Qed.

Lemma split_on_absent sep s :
  Str.contains sep s = false -> Str.split_on sep s = [s].
Proof.
  unfold Str.contains. rewrite negb_false_iff.
  induction s as [|c r IH]; [done|]. simpl.
  intros [Hc Hr]%andb_true_iff. apply negb_true_iff in Hc. rewrite Hc.
  by rewrite (IH Hr).
Qed.

Lemma take_until_absent (f g : ascii -> bool) s :
  (forall c, g c = true -> f c = false) -> Str.all g s = true -> Str.take_until f s = s.
Proof.
  intros Hfg. induction s as [|c r IH]; [done|]. simpl.
  intros [Hc Hr]%andb_true_iff. rewrite (Hfg _ Hc). by rewrite (IH Hr).
Qed.

Lemma last_char_all (f : ascii -> bool) s c :
  Str.all f s = true -> Str.last_char s = Some c -> f c = true.
Proof.
  induction s as [|a r IH]; [done|]. simpl.
  intros [Ha Hr]%andb_true_iff. destruct r; [congruence|]. by apply IH.
Qed.

Lemma last_char_cons a s : s <> "" -> Str.last_char (String a s) = Str.last_char s.
Proof. by destruct s. Qed.

Lemma plain_name_all s : plain_name s = true -> Str.all plain_char s = true.
Proof. unfold plain_name. by intros [[H _]%andb_true_iff _]%andb_true_iff. Qed.

Lemma plain_name_nonempty s : plain_name s = true -> s <> "".
Proof.
  unfold plain_name. intros [[_ H]%andb_true_iff _]%andb_true_iff ->. done.
Qed.

Lemma plain_name_not_dots s :
  plain_name s = true ->
  String.eqb s "" = false /\ String.eqb s "." = false /\ String.eqb s ".." = false.
Proof.
  unfold plain_name. intros [[_ H1]%andb_true_iff H2]%andb_true_iff.
  apply negb_true_iff in H1, H2. split; [done|].
  destruct s as [|a r]; [done|]. unfold Str.starts_with in H2. simpl in H2.
  destruct (ascii_dec "." a) as [<-|Hne].
  - by destruct r.
  - split; simpl; (destruct (Ascii.eqb a ".") eqn:E; [apply Ascii.eqb_eq in E; congruence|done]).
Qed.

Lemma plain_name_no_slash s : plain_name s = true -> Str.contains "/" s = false.
Proof. intros H. by apply (contains_false_of_all plain_char), plain_name_all. Qed.

Lemma plain_name_not_trailing s : plain_name s = true -> Str.ends_with_char "/" s = false.
Proof.
  intros H. unfold Str.ends_with_char.
  destruct (Str.last_char s) as [c|] eqn:E; [|done].
  pose proof (last_char_all _ _ _ (plain_name_all _ H) E) as Hc.
  destruct (Ascii.eqb c "/") eqn:Ec; [|done].
  apply Ascii.eqb_eq in Ec. by subst c.
Qed.

(** ** Joining onto the storage root *)

Lemma uploadsDir_segments : Path.segments uploadsDir = __dirname ++ ["uploads"].
Proof. reflexivity. Qed.

Lemma walk_plain stack s : plain_name s = true -> Path.walk stack s = stack ++ [s].
Proof.
  intros (E1 & E2 & E3)%plain_name_not_dots. unfold Path.walk. by rewrite E1, E2, E3.
Qed.

Lemma join_plain (base : Path.t) s :
  plain_name s = true ->
  Path.join base s = Path.mk (Path.segments base ++ [s]) false.
Proof.
  intros H. unfold Path.join.
  rewrite (split_on_absent _ _ (plain_name_no_slash _ H)). cbn [fold_left].
  rewrite (walk_plain _ _ H), (plain_name_not_trailing _ H).
  by destruct (plain_name_not_dots _ H) as (-> & _).
Qed.

Lemma join_parent_plain s :
  plain_name s = true ->
  Path.join uploadsDir ("../" +:+ s) = Path.mk (__dirname ++ [s]) false.
Proof.
  intros H. unfold Path.join.
  change ("../" +:+ s) with (String "." (String "." (String "/" s))).
  assert (Str.split_on "/" (String "." (String "." (String "/" s))) = [".."; s]) as ->.
  { cbn. by rewrite (split_on_absent _ _ (plain_name_no_slash _ H)). }
  cbn [fold_left]. rewrite uploadsDir_segments.
  assert (Path.walk (__dirname ++ ["uploads"]) ".." = __dirname) as ->.
  { unfold Path.walk. cbn. apply removelast_last. }
  rewrite (walk_plain _ _ H). f_equal.
  pose proof (plain_name_nonempty _ H) as Hne.
  unfold Str.ends_with_char.
  rewrite !last_char_cons by (done || by destruct s).
  exact (plain_name_not_trailing _ H).
Qed.

(** ** Properties of the base64 endpoint *)

Lemma app_base64 fs now req body :
  routed_to POST "/api/screenshot/base64" req ->
  payload_of req = Parsed body ->
  app fs now req =
    (res_set "Access-Control-Allow-Origin" "*" (fst (base64_handler fs now body)),
     snd (base64_handler fs now body)).
Proof.
  intros Hr Hp. rewrite (app_post fs now req body).
  - by rewrite (routes_base64 _ _ _ _ Hr).
  - by destruct Hr.
  - unfold body_parsers. by rewrite Hp.
Qed.

Lemma routed_with_body m pattern req b :
  routed_to m pattern req -> routed_to m pattern (with_body req b).
Proof. by intros [? ?]. Qed.

Lemma drop_prefix_spec p s r : Str.drop_prefix p s = Some r -> s = p +:+ r.
Proof.
  revert s. induction p as [|a p IH]; intros s H; simpl in H.
  - by inversion H.
  - destruct s as [|b s]; [discriminate|].
    destruct (Ascii.eqb a b) eqn:E; [|discriminate].
    apply Ascii.eqb_eq in E. subst b.
    change (String a p +:+ r) with (String a (p +:+ r)). f_equal. by apply IH.
Qed.

Lemma strip_payload P : Base64.is_payload P = true -> strip_data_url_prefix P = P.
Proof.
  intros H. unfold strip_data_url_prefix.
  destruct (Str.drop_prefix "data:image/" P) as [r|] eqn:E; [|done].
  apply drop_prefix_spec in E. subst P. by vm_compute in H.
Qed.

Lemma strip_png_prefix P :
  strip_data_url_prefix ("data:image/png;base64," +:+ P) = P.
Proof. reflexivity. Qed.

(** C6 (amended).  For every non-empty base64 payload [P], the base64 upload
    whose [image] is ['data:image/png;base64,' + P] and the one whose [image]
    is [P] alone behave identically: same response, same file system, and
    hence the same stored bytes, which on success are the decoding of [P]. *)
Theorem C6_prefix_stripping_is_noop fs now req rest P :
  routed_to POST "/api/screenshot/base64" req ->
  Base64.is_payload P = true ->
  P <> "" ->
  prefix_is_noop fs now req rest P
  /\ app fs now (with_body req (image_body ("data:image/png;base64," +:+ P) rest))
     = app fs now (with_body req (image_body P rest))
  /\ (forall resp fs',
        app fs now (with_body req (image_body P rest)) = (resp, fs') ->
        status resp = 200%N ->
        stored_by fs now (with_body req (image_body ("data:image/png;base64," +:+ P) rest))
        = Some (Base64.decode P)).
Proof.
  intros Hr HP Hne.
  assert (app fs now (with_body req (image_body ("data:image/png;base64," +:+ P) rest))
          = app fs now (with_body req (image_body P rest))) as Heq.
  { rewrite !(app_base64 fs now (with_body req _) _ (routed_with_body _ _ _ _ Hr) eq_refl).
    destruct (final_filename (prop "filename" (image_body P rest)) now) as [ |?|?|name|?|?] eqn:Hf.
    4: { rewrite (base64_handler_string fs now _ ("data:image/png;base64," +:+ P) name);
           [|done|done|exact Hf].
         rewrite (base64_handler_string fs now _ P name); [|done|done|exact Hf].
         by rewrite strip_png_prefix, (strip_payload _ HP). }
    all: unfold base64_handler; cbn [image_body prop assoc String.eqb Ascii.eqb Bool.eqb];
      cbn [image_body prop assoc String.eqb Ascii.eqb Bool.eqb] in Hf;
      rewrite (truthy_string P Hne);
      change (truthy (Some (JStr ("data:image/png;base64," +:+ P)))) with true;
      cbn [negb replace_prefix]; rewrite Hf; reflexivity. }
  split; [|split].
  - unfold prefix_is_noop, stored_by. by rewrite Heq.
  - exact Heq.
  - intros resp fs' Happ Hst. unfold stored_by. rewrite Heq, Happ.
    rewrite (app_base64 fs now (with_body req _) _ (routed_with_body _ _ _ _ Hr) eq_refl) in Happ.
    destruct (final_filename (prop "filename" (image_body P rest)) now) as [ |?|?|name|?|?] eqn:Hf.
    4: { rewrite (base64_handler_string fs now _ P name) in Happ; [|done|done|exact Hf].
         rewrite (strip_payload _ HP) in Happ.
         destruct (Fs.writeFileSync _ _ _) as [fs1|e] eqn:W.
         - inversion Happ; subst. cbn.
           apply write_ok in W as [_ W]. by apply read_holds.
         - inversion Happ; subst. discriminate. }
    all: exfalso; revert Happ; unfold base64_handler;
      cbn [image_body prop assoc String.eqb Ascii.eqb Bool.eqb];
      cbn [image_body prop assoc String.eqb Ascii.eqb Bool.eqb] in Hf;
      rewrite (truthy_string P Hne); cbn [negb replace_prefix]; rewrite Hf;
      intros Happ; inversion Happ; subst; discriminate.
Qed.


(** C10.  A request to the base64 endpoint whose [image] is the empty string
    is rejected with HTTP 400 and error 'No image data received', and is
    answered exactly as the same request without the [image] property. *)
Theorem C10_empty_image_is_rejected_as_absent fs now req fields :
  routed_to POST "/api/screenshot/base64" req ->
  payload_of req = Parsed (JObj fields) ->
  assoc "image" fields = Some (JStr "") ->
  (exists resp,
      app fs now req = (resp, fs)
      /\ status resp = 400%N
      /\ body resp = JsonBody (JObj [("success", JBool false);
                                     ("error", JStr "No image data received")]))
  /\ app fs now req = app fs now (with_body req (JObj (without "image" fields))).
Proof.
  intros Hr Hp Hi.
  rewrite (app_base64 fs now req _ Hr Hp).
  rewrite (app_base64 fs now (with_body req _) _ (routed_with_body _ _ _ _ Hr) eq_refl).
  rewrite !base64_handler_falsy.
  - split; [|done]. eexists. split; [reflexivity|]. by split.
  - cbn [prop]. unfold without. by rewrite assoc_without.
  - cbn [prop]. by rewrite Hi.
Qed.

(** C9.  For a non-empty string [image] (valid base64 or not) and a string
    file name, decoding never fails: if the write succeeds the response is
    HTTP 200 with success=true, and an HTTP 500 response can only come from
    a failed write. *)
Theorem C9_string_image_never_fails_decoding fs now req b s name :
  routed_to POST "/api/screenshot/base64" req ->
  payload_of req = Parsed b ->
  prop "image" b = Some (JStr s) ->
  s <> "" ->
  final_filename (prop "filename" b) now = JStr name ->
  let data := Base64.decode (strip_data_url_prefix s) in
  (forall fs1,
      Fs.writeFileSync fs (Path.join uploadsDir name) data = Ok fs1 ->
      exists resp,
        app fs now req = (resp, fs1)
        /\ status resp = 200%N
        /\ body resp = JsonBody (descriptor name (length data)))
  /\ (forall resp fs',
        app fs now req = (resp, fs') ->
        status resp = 500%N ->
        exists e,
          Fs.writeFileSync fs (Path.join uploadsDir name) data = Throw e
          /\ body resp = JsonBody (envelope "Internal server error" (error_message e))).
Proof.
  intros Hr Hp Hi Hs Hf data.
  rewrite (app_base64 fs now req _ Hr Hp).
  rewrite (base64_handler_string fs now b s name Hi Hs Hf). fold data.
  split.
  - intros fs1 ->. eexists. split; [reflexivity|]. by split.
  - intros resp fs'. destruct (Fs.writeFileSync _ _ _) as [fs1|e].
    + intros [= <- <-]. discriminate.
    + intros [= <- <-] _. by exists e.
Qed.

(** C8.  The client-supplied [filename] is joined onto the storage root as
    it is: with the file name ['../' + name] the upload succeeds and the
    file is written next to the storage root, not inside it. *)
Theorem C8_client_filename_escapes_storage_root fs now req b s name :
  routed_to POST "/api/screenshot/base64" req ->
  payload_of req = Parsed b ->
  prop "image" b = Some (JStr s) ->
  s <> "" ->
  prop "filename" b = Some (JStr ("../" +:+ name)) ->
  plain_name name = true ->
  Fs.open_w fs (Path.of_segments (__dirname ++ [name])) = None ->
  exists resp fs',
    app fs now req = (resp, fs')
    /\ status resp = 200%N
    /\ holds_file fs' (Path.of_segments (__dirname ++ [name]))
                  (Base64.decode (strip_data_url_prefix s))
    /\ ~ Path.inside (Path.segments uploadsDir) (__dirname ++ [name]).
Proof.
  intros Hr Hp Hi Hs Hf Hn Hw.
  assert (final_filename (prop "filename" b) now = JStr ("../" +:+ name)) as Hff.
  { rewrite Hf. reflexivity. }
  rewrite (app_base64 fs now req _ Hr Hp).
  rewrite (base64_handler_string fs now b s _ Hi Hs Hff).
  rewrite (join_parent_plain _ Hn). fold (Path.of_segments (__dirname ++ [name])).
  destruct (Fs.writeFileSync fs _ _) as [fs1|e] eqn:W.
  - apply write_ok in W as [_ W].
    eexists _, fs1. split; [reflexivity|]. split; [done|]. split; [exact W|].
    rewrite uploadsDir_segments. intros (rest & Hne & E).
    rewrite <- app_assoc in E. apply app_inv_head in E.
    destruct rest; [done|discriminate E].
  - unfold Fs.writeFileSync in W. by rewrite Hw in W.
Qed.


(** ** The multipart endpoint *)

Lemma find_split {A} (f : A -> bool) l x :
  find f l = Some x ->
  exists pre post, l = pre ++ x :: post /\ existsb f pre = false /\ f x = true.
Proof.
  induction l as [|a l IH]; [done|]. simpl.
  destruct (f a) eqn:Fa.
  - intros [= <-]. by exists [], l.
  - intros (pre & post & -> & Hpre & Hx)%IH.
    exists (a :: pre), post. simpl. by rewrite Fa.
Qed.

Lemma find_none_existsb {A} (f : A -> bool) l : find f l = None -> existsb f l = false.
Proof.
  induction l as [|a l IH]; [done|]. simpl. destruct (f a); [done|]. exact IH.
Qed.

Lemma run_text opts name now pre rest left body files fs :
  existsb carries_file pre = false ->
  Multer.run appendField opts name now (pre ++ rest) left body files fs
  = Multer.run appendField opts name now rest left (add_fields body pre) files fs.
Proof.
  revert body. induction pre as [|p pre IH]; intros body H.
  - done.
  - simpl in H. apply orb_false_iff in H as [Hp Hpre].
    destruct p as [k v|fname oname mime content]; simpl.
    + by rewrite (IH _ Hpre).
    + simpl in Hp. apply negb_false_iff in Hp. rewrite Hp. by rewrite (IH _ Hpre).
Qed.

Lemma run_without_files opts name now parts left body files fs :
  find carries_file parts = None ->
  Multer.run appendField opts name now parts left body files fs
  = (Ok (add_fields body parts, files), fs).
Proof.
  intros H%find_none_existsb.
  rewrite <- (app_nil_r parts) at 1. by rewrite (run_text _ _ _ _ _ _ _ _ _ H).
Qed.

(** The first file of the request. *)
Lemma run_first_file now parts fname oname mime content fs :
  find carries_file parts = Some (FilePart fname oname mime content) ->
  exists pre rest,
    parts = pre ++ FilePart fname oname mime content :: rest
    /\ existsb carries_file pre = false
    /\ Multer.run appendField upload "screenshot" now parts 1 (JObj []) [] fs
       = let info := {| fi_fieldname := fname; fi_originalname := oname;
                        fi_mimetype := mime |} in
         let fn := filename storage now in
         let p := Path.join uploadsDir fn in
         let stored (data : list byte) :=
           {| up_info := info; up_destination := uploadsDir; up_filename := fn;
              up_path := p; up_size := N.of_nat (length data) |} in
         if negb (String.eqb fname "screenshot") then
           (Throw (MulterError LIMIT_UNEXPECTED_FILE fname), fs)
         else if Str.starts_with "image/" mime then
           if (10 * 1024 * 1024 <=? N.of_nat (length content))%N then
             match Fs.writeFileSync fs p (firstn (N.to_nat (10 * 1024 * 1024)) content) with
             | Throw e => (Throw e, fs)
             | Ok fs1 =>
                 (Throw (MulterError LIMIT_FILE_SIZE fname), Fs.unlink fs1 p)
             end
           else
             match Fs.writeFileSync fs p content with
             | Throw e => (Throw e, fs)
             | Ok fs1 =>
                 Multer.run appendField upload "screenshot" now rest 0
                            (multipart_body pre) [stored content] fs1
             end
         else (Throw (PlainError "Only image files are allowed"), fs).
Proof.
  intros (pre & rest & -> & Hpre & Hx)%find_split.
  exists pre, rest. split; [done|]. split; [done|].
  rewrite (run_text _ _ _ _ _ _ _ _ _ Hpre).
  simpl in Hx. apply negb_true_iff in Hx.
  cbn [Multer.run]. rewrite Hx.
  change (Nat.eqb 1 0) with false. rewrite orb_false_r. cbv zeta.
  destruct (negb (String.eqb fname "screenshot")); [done|].
  cbn [fileFilter_of upload fi_mimetype].
  destruct (Str.starts_with "image/" mime); [|done].
  cbn [storage_of limits_fileSize upload destination filename storage].
  destruct (_ <=? _)%N.
  - by destruct (Fs.writeFileSync _ _ _).
  - by destruct (Fs.writeFileSync _ _ _).
Qed.

(** Once the field has received its file, any further file is refused. *)
Lemma run_full opts name now rest body files fs r fs' :
  Multer.run appendField opts name now rest 0 body files fs = (Ok r, fs') ->
  r = (add_fields body rest, files) /\ fs' = fs.
Proof.
  revert body. induction rest as [|p rest IH]; intros body; simpl.
  - by intros [= <- <-].
  - destruct p as [k v|fname oname mime content].
    + apply IH.
    + destruct (String.eqb oname ""); [apply IH|].
      rewrite orb_true_r. unfold Multer.abort. discriminate.
Qed.

Lemma app_screenshot fs now req parts :
  routed_to POST "/api/screenshot" req ->
  payload_of req = Multipart parts ->
  app fs now req =
    match Multer.run appendField upload "screenshot" now parts 1 (JObj []) [] fs with
    | (Ok (body', files), fs') =>
        (res_set "Access-Control-Allow-Origin" "*"
           (screenshot_handler req (head files) body'), fs')
    | (Throw e, fs') =>
        (res_set "Access-Control-Allow-Origin" "*" (error_middleware e), fs')
    end.
Proof.
  intros Hr Hp. rewrite (app_post fs now req (JObj [])).
  - rewrite (routes_screenshot _ _ _ _ Hr). unfold Multer.single. rewrite Hp.
    by destruct (Multer.run _ _ _ _ _ _ _ _ _) as [[[body' files]|e] fs'].
  - by destruct Hr.
  - unfold body_parsers. by rewrite Hp.
Qed.

(** A first file that fails the filter: the filter's error reaches the
    error middleware, which answers 500. *)
Lemma app_filter_rejects fs now req parts oname mime content :
  routed_to POST "/api/screenshot" req ->
  payload_of req = Multipart parts ->
  find carries_file parts = Some (FilePart "screenshot" oname mime content) ->
  Str.starts_with "image/" mime = false ->
  app fs now req =
    (res_set "Access-Control-Allow-Origin" "*"
       (res_json 500 (envelope "Internal server error" "Only image files are allowed")), fs).
Proof.
  intros Hr Hp Hf Hm. rewrite (app_screenshot _ _ _ _ Hr Hp).
  destruct (run_first_file now _ _ _ _ _ fs Hf) as (pre & rest & _ & _ & ->).
  cbv zeta. by rewrite Hm.
Qed.


(** C3 (amended).  A multipart request to POST /api/screenshot that carries
    no file at all, in any field, is answered with HTTP 400 and
    success=false, echoing the request headers and the received body, which
    is the object multer built from the text fields of the request (each
    added by append-field to the empty object, in order); nothing is
    stored. *)
Theorem C3_no_file_is_rejected_with_echo fs now req parts :
  routed_to POST "/api/screenshot" req ->
  payload_of req = Multipart parts ->
  find carries_file parts = None ->
  exists resp,
    app fs now req = (resp, fs)
    /\ no_file_reply req (multipart_body parts) resp.
Proof.
  intros Hr Hp Hf. rewrite (app_screenshot _ _ _ _ Hr Hp).
  rewrite (run_without_files _ _ _ _ _ _ _ _ Hf).
  eexists. split; [reflexivity|]. by split.
Qed.

(** C4 (amended).  A multipart upload whose file arrives in the
    [screenshot] field with a MIME type prefixed 'image/', exceeds 10 MiB,
    and can be opened for writing in the storage root, is answered with HTTP
    400, success=false, error 'File too large' and message "File size
    should be less than 10MB"; the truncated file is removed again. *)
Theorem C4_oversized_image_is_rejected fs now req parts oname mime content :
  routed_to POST "/api/screenshot" req ->
  payload_of req = Multipart parts ->
  find carries_file parts = Some (FilePart "screenshot" oname mime content) ->
  Str.starts_with "image/" mime = true ->
  (10 * 1024 * 1024 < N.of_nat (length content))%N ->
  Fs.open_w fs (Path.join uploadsDir (filename storage now)) = None ->
  exists resp fs',
    app fs now req = (resp, fs')
    /\ too_large_reply resp
    /\ fs' !! Path.segments (Path.join uploadsDir (filename storage now)) = None.
Proof.
  intros Hr Hp Hf Hm Hsz Hw. rewrite (app_screenshot _ _ _ _ Hr Hp).
  destruct (run_first_file now _ _ _ _ _ fs Hf) as (pre & rest & _ & _ & ->).
  cbv zeta. change (negb ("screenshot" =? "screenshot")%string) with false.
  cbn match. rewrite Hm.
  apply N.lt_le_incl, N.leb_le in Hsz. rewrite Hsz.
  destruct (Fs.writeFileSync _ _ _) as [fs1|e] eqn:W.
  - eexists _, _. split; [reflexivity|]. split; [by split|].
    apply write_ok in W as [_ W]. unfold Fs.unlink.
    rewrite (node_at_holds _ _ _ W). apply lookup_delete_eq.
  - unfold Fs.writeFileSync in W. by rewrite Hw in W.
Qed.

(** C5 (amended).  A multipart upload whose file arrives in the
    [screenshot] field with a MIME type not prefixed 'image/' fails: the
    filter's error surfaces as HTTP 500 with the envelope carrying 'Only
    image files are allowed'; nothing is stored. *)
Theorem C5_non_image_upload_fails_with_500 fs now req parts oname mime content :
  routed_to POST "/api/screenshot" req ->
  payload_of req = Multipart parts ->
  find carries_file parts = Some (FilePart "screenshot" oname mime content) ->
  Str.starts_with "image/" mime = false ->
  exists resp,
    app fs now req = (resp, fs)
    /\ status resp = 500%N
    /\ body resp = JsonBody (envelope "Internal server error" "Only image files are allowed").
Proof.
  intros Hr Hp Hf Hm. rewrite (app_filter_rejects _ _ _ _ _ _ _ Hr Hp Hf Hm).
  eexists. split; [reflexivity|]. by split.
Qed.


(** ** Successful uploads *)

Lemma multipart_success fs now req resp fs' :
  routed_to POST "/api/screenshot" req ->
  app fs now req = (resp, fs') ->
  status resp = 200%N ->
  exists data,
    body resp = JsonBody (descriptor (filename storage now) (length data))
    /\ holds_file fs' (Path.join uploadsDir (filename storage now)) data
    /\ uploaded_bytes req = Some data.
Proof.
  intros Hr Happ Hst.
  destruct (payload_of req) as [|b|e|parts] eqn:Hp.
  1-3: exfalso; revert Happ; unfold app, body_parsers; destruct Hr as [Hm Hpath];
    rewrite Hm, Hp; try rewrite (routes_screenshot _ _ _ _ (conj Hm Hpath));
    unfold Multer.single; try rewrite Hp; intros [= <- <-];
    rewrite status_finish in Hst; try (destruct e as [| | |[]|]); discriminate.
  rewrite (app_screenshot _ _ _ _ Hr Hp) in Happ.
  unfold uploaded_bytes. rewrite Hp.
  destruct (find carries_file parts) as [p|] eqn:Hf.
  2: { rewrite (run_without_files _ _ _ _ _ _ _ _ Hf) in Happ.
       inversion Happ; subst. discriminate. }
  destruct p as [k v|fname oname mime content].
  { apply find_some in Hf as [_ Hf]. discriminate. }
  destruct (run_first_file now _ _ _ _ _ fs Hf) as (pre & rest & _ & _ & Hrun).
  rewrite Hrun in Happ. cbv zeta in Happ. clear Hrun.
  destruct (negb (String.eqb fname "screenshot")).
  { inversion Happ; subst. discriminate. }
  destruct (Str.starts_with "image/" mime).
  2: { inversion Happ; subst. discriminate. }
  destruct (_ <=? _)%N.
  { destruct (Fs.writeFileSync _ _ _); inversion Happ; subst; try discriminate.
    destruct e as [| | |[]|]; discriminate. }
  destruct (Fs.writeFileSync _ _ _) as [fs1|e] eqn:W.
  2: { inversion Happ; subst. destruct e as [| | |[]|]; discriminate. }
  apply write_ok in W as [_ W].
  destruct (Multer.run _ _ _ _ rest _ _ _ _) as [[r|e] fs2] eqn:Hrest.
  2: { inversion Happ; subst. destruct e as [| | |[]|]; discriminate. }
  apply run_full in Hrest as [-> ->].
  inversion Happ; subst. exists content. split; [|done].
  cbn [hd_error head screenshot_handler up_filename up_size].
  by rewrite success_descriptor.
Qed.

Lemma base64_success fs now req resp fs' :
  routed_to POST "/api/screenshot/base64" req ->
  app fs now req = (resp, fs') ->
  status resp = 200%N ->
  exists b name data,
    payload_of req = Parsed b
    /\ final_filename (prop "filename" b) now = JStr name
    /\ body resp = JsonBody (descriptor name (length data))
    /\ holds_file fs' (Path.join uploadsDir name) data
    /\ uploaded_bytes req = Some data.
Proof.
  intros Hr Happ Hst.
  assert (exists body, body_parsers req = Ok body
            /\ (payload_of req = Parsed body \/ prop "image" body = None)) as (b & Hb & Hpay).
  { unfold body_parsers. destruct (payload_of req) as [|b|e|parts] eqn:Hp.
    - exists (JObj []). auto.
    - exists b. auto.
    - exfalso. revert Happ. unfold app, body_parsers. destruct Hr as [-> _]. rewrite Hp.
      intros [= <- <-]. rewrite status_finish in Hst. discriminate.
    - exists (JObj []). auto. }
  rewrite (app_post fs now req b) in Happ; [|by destruct Hr|done].
  rewrite (routes_base64 _ _ _ _ Hr) in Happ.
  destruct (prop "image" b) as [v|] eqn:Hi.
  2: { rewrite base64_handler_falsy in Happ by (by rewrite Hi).
       inversion Happ; subst. discriminate. }
  destruct Hpay as [Hp|]; [|discriminate].
  destruct (truthy (Some v)) eqn:Ht.
  2: { rewrite base64_handler_falsy in Happ by (by rewrite Hi).
       inversion Happ; subst. discriminate. }
  destruct v as [ |?|?|s|?|?].
  1-3,5-6: exfalso; revert Happ; unfold base64_handler; rewrite Hi, Ht;
    intros [= <- <-]; discriminate.
  assert (s <> "") as Hs by (intros ->; discriminate).
  destruct (final_filename (prop "filename" b) now) as [ |?|?|name|?|?] eqn:Hf.
  1-3,5-6: exfalso; revert Happ; unfold base64_handler; rewrite Hi, Ht;
    cbn [negb replace_prefix]; rewrite Hf; intros [= <- <-]; discriminate.
  rewrite (base64_handler_string fs now b s name Hi Hs Hf) in Happ.
  destruct (Fs.writeFileSync _ _ _) as [fs1|e] eqn:W.
  2: { inversion Happ; subst. discriminate. }
  apply write_ok in W as [_ W].
  inversion Happ; subst.
  exists b, name, (Base64.decode (strip_data_url_prefix s)).
  repeat split; try done; try apply W.
  unfold uploaded_bytes. by rewrite Hp, Hi.
Qed.

(** C1.  For every successful upload, multipart or base64, the [size] field
    of the JSON success response equals the exact byte length of the file
    written under the reported name. *)
Theorem C1_size_equals_stored_length fs now req resp fs' :
  routed_to POST "/api/screenshot" req \/ routed_to POST "/api/screenshot/base64" req ->
  app fs now req = (resp, fs') ->
  status resp = 200%N ->
  exists name data,
    body resp = JsonBody (descriptor name (length data))
    /\ Fs.read fs' (Path.join uploadsDir name) = Some data
    /\ Fs.statSync fs' (Path.join uploadsDir name)
       = Ok {| st_size := N.of_nat (length data); st_isDirectory := false |}.
Proof.
  intros [Hr|Hr] Happ Hst.
  - destruct (multipart_success _ _ _ _ _ Hr Happ Hst) as (data & Hb & Hh & _).
    exists (filename storage now), data.
    split; [done|]. split; [by apply read_holds | by apply stat_holds].
  - destruct (base64_success _ _ _ _ _ Hr Happ Hst) as (b & name & data & _ & _ & Hb & Hh & _).
    exists name, data.
    split; [done|]. split; [by apply read_holds | by apply stat_holds].
Qed.


(** ** Retrieval of a stored file *)

Lemma append_cons c a b : String c a +:+ b = String c (a +:+ b).
Proof. reflexivity. Qed.

Lemma all_app f a b : Str.all f (a +:+ b) = Str.all f a && Str.all f b.
Proof.
  induction a as [|c a IH]; [done|].
  rewrite append_cons. simpl. by rewrite IH, andb_assoc.
Qed.

Lemma digits_plain u : Str.all plain_char (NilEmpty.string_of_uint u) = true.
Proof. induction u; simpl; auto. Qed.

Lemma generated_name_plain timestamp : plain_name (filename storage timestamp) = true.
Proof.
  cbn [filename storage]. unfold plain_name.
  rewrite !all_app. unfold Str.of_N. rewrite digits_plain. reflexivity.
Qed.

Lemma substring_whole m s :
  (String.length s <= m)%nat -> String.substring 0 m s = s.
Proof.
  revert m. induction s as [|c s IH]; intros m H.
  - by destruct m.
  - destruct m; simpl in *; [lia|]. rewrite IH; [done | lia].
Qed.

Lemma decode_absent (g : ascii -> bool) s :
  (forall c, g c = true -> Ascii.eqb c "%" = false) ->
  Str.all g s = true -> Url.decode s = Some s.
Proof.
  intros Hg. induction s as [|c r IH]; [done|]. simpl.
  intros [Hc Hr]%andb_true_iff. rewrite (Hg _ Hc), (IH Hr). reflexivity.
Qed.

Lemma plain_char_not c x : plain_char x = false -> plain_char c = true -> Ascii.eqb c x = false.
Proof.
  intros Hx Hc. destruct (Ascii.eqb c x) eqn:E; [|done].
  apply Ascii.eqb_eq in E. congruence.
Qed.

Lemma pathname_uploads name :
  plain_name name = true ->
  Url.pathname ("/uploads/" +:+ name) = "/uploads/" +:+ name.
Proof.
  intros H. unfold Url.pathname.
  apply (take_until_absent _ (fun c => plain_char c || Ascii.eqb c "/")).
  - intros c [Hc|Hc]%orb_true_iff.
    + by rewrite (plain_char_not c "?" eq_refl Hc), (plain_char_not c "#" eq_refl Hc).
    + apply Ascii.eqb_eq in Hc. by subst c.
  - rewrite all_app. apply andb_true_iff. split; [reflexivity|].
    apply (all_impl plain_char); [|by apply plain_name_all].
    intros c ->. reflexivity.
Qed.

Lemma below_mount_uploads name :
  below_mount "/uploads" ("/uploads/" +:+ name) = Some (String "/" name).
Proof.
  unfold below_mount.
  change (String.substring 0 (String.length "/uploads") ("/uploads/" +:+ name))
    with "/uploads".
  change (Str.drop_prefix "/uploads" (Str.lower "/uploads")) with (Some "").
  change (String.substring (String.length "/uploads")
            (String.length ("/uploads/" +:+ name)) ("/uploads/" +:+ name))
    with (String "/" (String.substring 0 (8 + String.length name) name)).
  rewrite substring_whole; [done | lia].
Qed.

Lemma send_stored fs name data :
  plain_name name = true ->
  holds_file fs (Path.join uploadsDir name) data ->
  Static.send fs uploadsDir (String "/" name) = Static.SendFile data.
Proof.
  intros Hn Hh. unfold Static.send.
  pose proof (plain_name_all _ Hn) as Hall.
  pose proof (plain_name_not_dots _ Hn) as (E1 & E2 & E3).
  assert (Url.decode (String "/" name) = Some (String "/" name)) as ->.
  { simpl. rewrite (decode_absent plain_char); [done| |done].
    intros c Hc. by apply plain_char_not. }
  assert (Str.contains "000" (String "/" name) = false) as ->.
  { unfold Str.contains. simpl. apply negb_false_iff.
    apply (all_impl plain_char); [|done].
    intros c Hc. apply negb_true_iff. by apply plain_char_not. }
  assert (Path.normalize_rel (String "/" name) = [name]) as ->.
  { unfold Path.normalize_rel. simpl.
    rewrite (split_on_absent _ _ (plain_name_no_slash _ Hn)). simpl.
    unfold Path.walk_rel. by rewrite E1, E2, E3. }
  assert (Str.ends_with_char "/" (String "/" name) = false) as ->.
  { unfold Str.ends_with_char.
    rewrite last_char_cons by (by apply plain_name_nonempty).
    exact (plain_name_not_trailing _ Hn). }
  cbn [existsb]. rewrite String.eqb_sym, E3. cbn [orb].
  assert (Static.dot_ignored [name] false = false) as ->.
  { unfold Static.dot_ignored, Static.is_dotfile. cbn [existsb].
    unfold plain_name in Hn. apply andb_true_iff in Hn as [_ Hd].
    apply negb_true_iff in Hd. by rewrite Hd. }
  rewrite <- (join_plain uploadsDir name Hn).
  by rewrite (stat_holds _ _ _ Hh), (read_holds _ _ _ Hh).
Qed.

Lemma get_stored fs now name data :
  plain_name name = true ->
  holds_file fs (Path.join uploadsDir name) data ->
  app fs now (get_request ("/uploads/" +:+ name)) = (file_response data, fs).
Proof.
  intros Hn Hh. unfold app, routes, serve_uploads.
  cbn [get_request method url payload_of body_parsers].
  rewrite (pathname_uploads _ Hn), below_mount_uploads, (send_stored _ _ _ Hn Hh).
  reflexivity.
Qed.

(** C2 (amended).  For every multipart upload, and every base64 upload whose
    file name is generated by the server or is a client-supplied plain name
    (letters, digits, '-', '_' and '.', not starting with '.'), a subsequent
    plain GET of the response's [url] returns exactly the uploaded bytes, as
    stored, and leaves the storage untouched. *)
Theorem C2_upload_then_get_round_trips fs now req resp fs' :
  routed_to POST "/api/screenshot" req \/ routed_to POST "/api/screenshot/base64" req ->
  client_name_plain req = true ->
  app fs now req = (resp, fs') ->
  status resp = 200%N ->
  exists name data,
    body resp = JsonBody (descriptor name (length data))
    /\ uploaded_bytes req = Some data
    /\ Fs.read fs' (Path.join uploadsDir name) = Some data
    /\ round_trips fs' resp data
    /\ forall now', app fs' now' (get_request ("/uploads/" +:+ name)) = (file_response data, fs').
Proof.
  intros Hr Hc Happ Hst.
  assert (exists name data,
             body resp = JsonBody (descriptor name (length data))
             /\ uploaded_bytes req = Some data
             /\ holds_file fs' (Path.join uploadsDir name) data
             /\ plain_name name = true) as (name & data & Hb & Hu & Hh & Hn).
  { destruct Hr as [Hr|Hr].
    - destruct (multipart_success _ _ _ _ _ Hr Happ Hst) as (data & Hb & Hh & Hu).
      exists (filename storage now), data. repeat split; try done; try apply Hh.
      apply generated_name_plain.
    - destruct (base64_success _ _ _ _ _ Hr Happ Hst)
        as (b & name & data & Hp & Hf & Hb & Hh & Hu).
      exists name, data. repeat split; try done; try apply Hh.
      unfold client_name_plain in Hc. rewrite Hp in Hc.
      unfold final_filename in Hf.
      destruct (prop "filename" b) as [v|] eqn:Hv.
      + destruct (truthy (Some v)) eqn:Ht.
        * subst v. simpl in Ht. apply negb_true_iff in Ht. by rewrite Ht in Hc.
        * inversion Hf. apply generated_name_plain.
      + inversion Hf. apply generated_name_plain. }
  exists name, data. split; [done|]. split; [done|].
  split; [by apply read_holds|]. split.
  - intros j u now' Hj Hurl. rewrite Hb in Hj. inversion Hj; subst j.
    inversion Hurl; subst u.
    by rewrite (get_stored fs' now' name data Hn Hh).
  - intros now'. by apply get_stored.
Qed.


(** ** Requests no route answers *)

(** C7 (amended).  Every request other than OPTIONS (which the CORS
    middleware answers itself) and HEAD (answered without a body), whose
    body the parsers accept and which no route answers, gets HTTP 404 with
    success=false and a body listing exactly the five documented endpoint
    strings; the storage is untouched. *)
Theorem C7_unmatched_request_gets_404_with_endpoints fs now req :
  method req <> OPTIONS ->
  method req <> HEAD ->
  (forall message, payload_of req <> Rejected message) ->
  handled fs req = false ->
  exists resp, app fs now req = (resp, fs) /\ not_found_reply resp.
Proof.
  intros Ho Hh Hp Hn. unfold handled in Hn.
  repeat (apply orb_false_iff in Hn as [Hn ?]).
  unfold app.
  assert (exists body, body_parsers req = Ok body) as [body ->].
  { unfold body_parsers. destruct (payload_of req) as [|b|m|parts] eqn:E; eauto.
    by destruct (Hp m). }
  unfold routes.
  destruct (serve_uploads fs req); [discriminate|].
  repeat match goal with H : route_matches _ _ _ = false |- _ => rewrite H; clear H end.
  exists (finish req not_found).
  split; [by destruct (method req)|].
  unfold finish. by destruct (method req).
Qed.


(** * Further properties of the server *)

(** ** Startup *)

Lemma node_at_snoc fs pre s : Fs.node_at fs (pre ++ [s]) = fs !! (pre ++ [s]).
Proof. unfold Fs.node_at. by destruct pre. Qed.

Lemma mkdir_from_subseteq fs pre rest fs' :
  Fs.mkdir_from fs pre rest = Ok fs' -> fs ⊆ fs'.
Proof.
  revert fs pre. induction rest as [|s rest IH]; intros fs pre; simpl.
  - by intros [= <-].
  - rewrite node_at_snoc. destruct (fs !! (pre ++ [s])) as [[data|]|] eqn:E.
    + discriminate.
    + apply IH.
    + intros H%IH. etrans; [|exact H]. by apply insert_subseteq.
Qed.

Lemma mkdir_from_dir fs pre rest fs' :
  Fs.node_at fs pre = Some Dir ->
  Fs.mkdir_from fs pre rest = Ok fs' ->
  Fs.node_at fs' (pre ++ rest) = Some Dir.
Proof.
  revert fs pre. induction rest as [|s rest IH]; intros fs pre Hd; simpl.
  - intros [= <-]. by rewrite app_nil_r.
  - rewrite node_at_snoc. replace (pre ++ s :: rest) with ((pre ++ [s]) ++ rest)
      by (by rewrite <- app_assoc).
    destruct (fs !! (pre ++ [s])) as [[data|]|] eqn:E.
    + discriminate.
    + apply IH. by rewrite node_at_snoc.
    + apply IH. rewrite node_at_snoc. apply lookup_insert_eq.
Qed.

Lemma mkdir_from_again fs pre rest fs' :
  Fs.mkdir_from fs pre rest = Ok fs' -> Fs.mkdir_from fs' pre rest = Ok fs'.
Proof.
  revert fs pre. induction rest as [|s rest IH]; intros fs pre; simpl; [done|].
  rewrite !node_at_snoc. destruct (fs !! (pre ++ [s])) as [[data|]|] eqn:E.
  - discriminate.
  - intros H. pose proof (mkdir_from_subseteq _ _ _ _ H) as Hsub.
    rewrite (lookup_weaken _ _ _ _ E Hsub). by apply (IH fs).
  - intros H. pose proof (mkdir_from_subseteq _ _ _ _ H) as Hsub.
    rewrite (lookup_weaken _ fs' (pre ++ [s]) Dir (lookup_insert_eq _ _ _) Hsub).
    by apply (IH (<[pre ++ [s] := Dir]> fs)).
Qed.

(** X1.  When startup succeeds, every node that existed is still there
    unchanged, and the uploads path is a directory, unless a regular file
    already sat at that path, in which case startup changes nothing. *)
Theorem X1_startup_ensures_uploads_directory fs fs' :
  startup fs = Ok fs' ->
  fs ⊆ fs'
  /\ (Fs.node_at fs' (Path.segments uploadsDir) = Some Dir
      \/ (fs' = fs /\ exists data, Fs.node_at fs (Path.segments uploadsDir) = Some (File data))).
Proof.
  unfold startup, Fs.existsSync, Fs.statSync, Fs.mkdirSync_recursive.
  destruct (Fs.has_nul uploadsDir); cbn [negb].
  - intros H. split; [by apply mkdir_from_subseteq in H|].
    left. by apply (mkdir_from_dir fs [] _ fs').
  - destruct (Fs.node_at fs (Path.segments uploadsDir)) as [[data|]|] eqn:E; cbn.
    + intros [= <-]. split; [done|]. right. split; [done|]. by exists data.
    + intros [= <-]. split; [done|]. by left.
    + intros H. split; [by apply mkdir_from_subseteq in H|].
      left. by apply (mkdir_from_dir fs [] _ fs').
Qed.

(** X2.  Startup is idempotent: started again on the disk a successful
    startup left, it succeeds and changes nothing. *)
Theorem X2_startup_is_idempotent fs fs' :
  startup fs = Ok fs' -> startup fs' = Ok fs'.
Proof.
  unfold startup. destruct (Fs.existsSync fs uploadsDir) eqn:E; cbn [negb].
  - intros [= <-]. by rewrite E.
  - intros H. destruct (Fs.existsSync fs' uploadsDir); cbn [negb]; [done|].
    by apply (mkdir_from_again fs).
Qed.


(** ** Health checks, and requests that cannot write *)

Lemma lower_substring n m s :
  Str.lower (String.substring n m s) = String.substring n m (Str.lower s).
Proof.
  revert n m. induction s as [|c s IH]; intros n m.
  - by destruct n, m.
  - destruct n, m; simpl; try done; by rewrite IH.
Qed.

Lemma append_empty s : s +:+ "" = s.
Proof.
  induction s as [|c s IH]; [done|].
  change (String c s +:+ "") with (String c (s +:+ "")). by rewrite IH.
Qed.

Lemma below_mount_none mount p :
  String.substring 0 (String.length mount) (Str.lower p) <> mount ->
  below_mount mount p = None.
Proof.
  intros H. unfold below_mount. rewrite lower_substring.
  destruct (Str.drop_prefix mount _) as [[|c t]|] eqn:E; try done.
  apply drop_prefix_spec in E. rewrite append_empty in E. by destruct H.
Qed.

Lemma serve_uploads_elsewhere fs req pattern :
  path_matches pattern (Url.pathname (url req)) = true ->
  String.substring 0 8 pattern <> "/uploads" ->
  String.substring 0 8 (pattern +:+ "/") <> "/uploads" ->
  serve_uploads fs req = None.
Proof.
  intros Hp H1 H2. unfold serve_uploads.
  rewrite below_mount_none; [by destruct (method req)|].
  by destruct (path_matches_cases _ _ Hp) as [-> | ->].
Qed.

Lemma health_is_not_root p :
  path_matches "/api/health" p = true -> path_matches "/" p = false.
Proof.
  intros [E|E]%path_matches_cases; unfold path_matches; rewrite E; reflexivity.
Qed.

Lemma finish_not_head req r :
  method req <> HEAD -> finish req r = res_set "Access-Control-Allow-Origin" "*" r.
Proof. intros H. unfold finish. by destruct (method req). Qed.

(** X3.  A GET of [/] or of [/api/health] whose body the parsers accept is
    answered 200 with the status text and the ISO timestamp of the clock
    (and, for [/], the uploads path); the storage is untouched. *)
Theorem X3_health_checks_report_and_do_not_write fs now req :
  (forall message, payload_of req <> Rejected message) ->
  (routed_to GET "/" req ->
   exists resp,
     app fs now req = (resp, fs)
     /\ status resp = 200%N
     /\ body resp = JsonBody (JObj [("status", JStr "Web Audit API Server is running");
                                    ("timestamp", JStr (Date.toISOString now));
                                    ("uploadsDir", JStr (Path.render uploadsDir))]))
  /\ (routed_to GET "/api/health" req ->
      exists resp,
        app fs now req = (resp, fs)
        /\ status resp = 200%N
        /\ body resp = JsonBody (JObj [("status", JStr "healthy");
                                       ("timestamp", JStr (Date.toISOString now))])).
Proof.
  intros Hp.
  assert (exists body, body_parsers req = Ok body) as [b Hb].
  { unfold body_parsers. destruct (payload_of req) as [|b|m|parts] eqn:E; eauto.
    by destruct (Hp m). }
  split; intros [Hm Hpath]; unfold app, routes, route_matches, method_matches;
    rewrite Hm, Hb, (serve_uploads_elsewhere fs req _ Hpath)
      by (intros H0; vm_compute in H0; discriminate).
  - rewrite Hpath. cbn [andb]. rewrite finish_not_head by (by rewrite Hm).
    eexists. split; [reflexivity|]. by split.
  - rewrite (health_is_not_root _ Hpath), Hpath. cbn [andb].
    rewrite finish_not_head by (by rewrite Hm).
    eexists. split; [reflexivity|]. by split.
Qed.

(** X4.  Only POST requests can change the storage: whatever the path,
    headers and body, a request with any other method leaves the file
    system exactly as it was. *)
Theorem X4_only_post_requests_write fs now req :
  method req <> POST -> snd (app fs now req) = fs.
Proof.
  intros Hm. unfold app.
  destruct (method req) eqn:Em; try done;
    destruct (body_parsers req) as [b|e]; try done;
    unfold routes, route_matches, method_matches; rewrite Em; cbn [andb];
    destruct (serve_uploads fs req); try done;
    repeat match goal with |- context [if ?c then _ else _] => destruct c end; done.
Qed.


(** X5.  A base64 upload whose target cannot be opened for writing (its
    directory is missing, a file stands where a directory is needed, or the
    name is that of a directory) is answered with HTTP 500 carrying the
    message of the system error, and stores nothing. *)
Theorem X5_unopenable_target_fails_and_stores_nothing fs now req b s name e :
  routed_to POST "/api/screenshot/base64" req ->
  payload_of req = Parsed b ->
  prop "image" b = Some (JStr s) ->
  s <> "" ->
  final_filename (prop "filename" b) now = JStr name ->
  Fs.open_w fs (Path.join uploadsDir name) = Some e ->
  exists resp,
    app fs now req = (resp, fs)
    /\ status resp = 500%N
    /\ body resp = JsonBody (envelope "Internal server error" (error_message e)).
Proof.
  intros Hr Hp Hi Hs Hf Hw.
  rewrite (app_base64 fs now req _ Hr Hp).
  rewrite (base64_handler_string fs now b s name Hi Hs Hf).
  unfold Fs.writeFileSync. rewrite Hw.
  eexists. split; [reflexivity|]. by split.
Qed.


(** ** What an upload does to the storage *)

Lemma run_full_throw opts name now rest body files fs e fs' :
  Multer.run appendField opts name now rest 0 body files fs = (Throw e, fs') ->
  fs' = Multer.remove_uploaded files fs.
Proof.
  revert body. induction rest as [|p rest IH]; intros body; simpl; [done|].
  destruct p as [k v|fname oname mime content]; [apply IH|].
  destruct (String.eqb oname ""); [apply IH|].
  rewrite orb_true_r. unfold Multer.abort. by intros [= _ <-].
Qed.

Lemma generated_path now :
  Path.segments (Path.join uploadsDir (filename storage now))
  = __dirname ++ ["uploads"; filename storage now].
Proof.
  rewrite (join_plain _ _ (generated_name_plain now)). cbn [Path.segments].
  by rewrite uploadsDir_segments, <- app_assoc.
Qed.

Lemma unlink_written fs p data fs1 :
  Fs.writeFileSync fs p data = Ok fs1 ->
  Fs.unlink fs1 p = delete (Path.segments p) fs.
Proof.
  intros W. apply write_ok in W as [-> W]. unfold Fs.unlink.
  rewrite (node_at_holds _ _ _ W). apply delete_insert_eq.
Qed.

(** Every outcome of a request to the multipart endpoint. *)
Lemma multipart_outcome fs now req resp fs' :
  routed_to POST "/api/screenshot" req ->
  app fs now req = (resp, fs') ->
  (status resp = 200%N
   /\ exists data,
        uploaded_bytes req = Some data
        /\ body resp = JsonBody (descriptor (filename storage now) (length data))
        /\ fs' = <[__dirname ++ ["uploads"; filename storage now] := File data]> fs)
  \/ (status resp <> 200%N
      /\ (fs' = fs \/ fs' = delete (__dirname ++ ["uploads"; filename storage now]) fs)).
Proof.
  intros Hr Happ. rewrite <- generated_path.
  destruct (payload_of req) as [|b|m|parts] eqn:Hp.
  1-3: right; revert Happ; unfold app, body_parsers; destruct Hr as [Hm Hpath];
    rewrite Hm, Hp; try rewrite (routes_screenshot _ _ _ _ (conj Hm Hpath));
    unfold Multer.single; try rewrite Hp; intros [= <- <-];
    rewrite status_finish; split; [discriminate | by left].
  rewrite (app_screenshot _ _ _ _ Hr Hp) in Happ.
  unfold uploaded_bytes. rewrite Hp.
  destruct (find carries_file parts) as [p|] eqn:Hf.
  2: { rewrite (run_without_files _ _ _ _ _ _ _ _ Hf) in Happ.
       inversion Happ; subst. right. split; [discriminate | by left]. }
  destruct p as [k v|fname oname mime content].
  { apply find_some in Hf as [_ Hf]. discriminate. }
  destruct (run_first_file now _ _ _ _ _ fs Hf) as (pre & rest & _ & _ & Hrun).
  rewrite Hrun in Happ. cbv zeta in Happ. clear Hrun.
  destruct (negb (String.eqb fname "screenshot")).
  { inversion Happ; subst. right. split; [discriminate | by left]. }
  destruct (Str.starts_with "image/" mime).
  2: { inversion Happ; subst. right. split; [discriminate | by left]. }
  destruct (_ <=? _)%N.
  { destruct (Fs.writeFileSync _ _ _) as [fs1|e] eqn:W; inversion Happ; subst; right.
    - split; [discriminate|]. right. by apply unlink_written in W.
    - split; [by destruct e as [| | |[]|] | by left]. }
  destruct (Fs.writeFileSync _ _ _) as [fs1|e] eqn:W.
  2: { inversion Happ; subst. right. split; [by destruct e as [| | |[]|] | by left]. }
  destruct (Multer.run _ _ _ _ rest _ _ _ _) as [[r|e] fs2] eqn:Hrest.
  - apply run_full in Hrest as [-> ->]. inversion Happ; subst. left.
    split; [done|]. exists content. split; [done|].
    apply write_ok in W as [-> _]. split; [|done].
    cbn [hd_error head screenshot_handler up_filename up_size].
    by rewrite success_descriptor.
  - pose proof (run_full_throw _ _ _ _ _ _ _ _ _ Hrest) as ->.
    assert (exists f, e = MulterError LIMIT_UNEXPECTED_FILE f) as [f ->].
    { clear -Hrest. revert Hrest. generalize (multipart_body pre).
      induction rest as [|p rest IH]; intros body; simpl; [done|].
      destruct p as [k v|fname' oname' mime' content']; [apply IH|].
      destruct (String.eqb oname' ""); [apply IH|].
      rewrite orb_true_r. unfold Multer.abort. intros [= <-]. by eexists. }
    inversion Happ; subst. right. split; [discriminate|]. right.
    cbn [Multer.remove_uploaded fold_left up_path]. by apply unlink_written in W.
Qed.

(** X6.  A successful multipart upload stores exactly one file: the
    uploaded bytes, under [uploads/screenshot-<clock>.png] whatever name the
    client gave the file; every other path is untouched. *)
Theorem X6_multipart_upload_stores_one_generated_file fs now req resp fs' :
  routed_to POST "/api/screenshot" req ->
  app fs now req = (resp, fs') ->
  status resp = 200%N ->
  exists data,
    uploaded_bytes req = Some data
    /\ fs' = <[__dirname ++ ["uploads"; "screenshot-" +:+ Str.of_N now +:+ ".png"]
               := File data]> fs.
Proof.
  intros Hr Happ Hst.
  destruct (multipart_outcome _ _ _ _ _ Hr Happ) as [(_ & data & Hu & _ & Hfs)|[Hne _]].
  - by exists data.
  - by destruct Hne.
Qed.

(** X7.  A failed multipart upload never leaves a file behind and never
    touches another path; but when it fails after its file was written (too
    large, or a second file follows) the cleanup also removes a file stored
    earlier under the same generated name. *)
Theorem X7_failed_multipart_upload_leaves_no_file fs now req resp fs' :
  routed_to POST "/api/screenshot" req ->
  app fs now req = (resp, fs') ->
  status resp <> 200%N ->
  fs' = fs
  \/ fs' = delete (__dirname ++ ["uploads"; "screenshot-" +:+ Str.of_N now +:+ ".png"]) fs.
Proof.
  intros Hr Happ Hst.
  destruct (multipart_outcome _ _ _ _ _ Hr Happ) as [(Hok & _)|[_ H]]; [by destruct Hst|done].
Qed.

(** X8.  Two multipart uploads within the same millisecond get the same
    file name and URL, and the second silently replaces the first: after
    both, the storage is the original one with only the second file added. *)
Theorem X8_same_millisecond_uploads_collide fs now req1 req2 resp1 resp2 fs1 fs2 :
  routed_to POST "/api/screenshot" req1 ->
  routed_to POST "/api/screenshot" req2 ->
  app fs now req1 = (resp1, fs1) -> status resp1 = 200%N ->
  app fs1 now req2 = (resp2, fs2) -> status resp2 = 200%N ->
  exists (name : string) (data1 data2 : list byte),
    body resp1 = JsonBody (descriptor name (length data1))
    /\ body resp2 = JsonBody (descriptor name (length data2))
    /\ uploaded_bytes req2 = Some data2
    /\ fs2 = <[__dirname ++ ["uploads"; name] := File data2]> fs.
Proof.
  intros Hr1 Hr2 Happ1 Hst1 Happ2 Hst2.
  destruct (multipart_outcome _ _ _ _ _ Hr1 Happ1)
    as [(_ & data1 & Hu1 & Hb1 & Hfs1)|[Hne _]]; [|by destruct Hne].
  destruct (multipart_outcome _ _ _ _ _ Hr2 Happ2)
    as [(_ & data2 & Hu2 & Hb2 & Hfs2)|[Hne _]]; [|by destruct Hne].
  exists (filename storage now), data1, data2.
  do 3 (split; [done|]).
  rewrite Hfs2, Hfs1. apply insert_insert_eq.
Qed.

Lemma append_inv_head p a b : p +:+ a = p +:+ b -> a = b.
Proof.
  induction p as [|c p IH]; [done|].
  rewrite !append_cons. intros [= H]. by apply IH.
Qed.

Lemma digits_inv_tail a b t c :
  Str.all Str.is_digit a = true -> Str.all Str.is_digit b = true ->
  Str.is_digit c = false ->
  a +:+ String c t = b +:+ String c t -> a = b.
Proof.
  intros Ha Hb Hc. revert b Hb. induction a as [|x a IH]; intros [|y b] Hb.
  - done.
  - change ("" +:+ String c t) with (String c t). rewrite append_cons.
    intros [= -> _]. simpl in Hb. by rewrite Hc in Hb.
  - change ("" +:+ String c t) with (String c t). rewrite append_cons.
    intros [= -> _]. simpl in Ha. by rewrite Hc in Ha.
  - rewrite !append_cons. intros [= -> H]. f_equal.
    simpl in Ha, Hb. apply andb_true_iff in Ha as [_ Ha], Hb as [_ Hb].
    by apply IH.
Qed.

Lemma digits_of_N n : Str.all Str.is_digit (Str.of_N n) = true.
Proof. unfold Str.of_N. induction (N.to_uint n); simpl; auto. Qed.

Lemma of_N_inj n m : Str.of_N n = Str.of_N m -> n = m.
Proof.
  unfold Str.of_N. intros H. apply DecimalN.Unsigned.to_uint_inj.
  assert (Some (N.to_uint n) = Some (N.to_uint m)) as [= E]; [|done].
  by rewrite <- !NilEmpty.usu, H.
Qed.

Lemma generated_name_inj t1 t2 : filename storage t1 = filename storage t2 -> t1 = t2.
Proof.
  cbn [filename storage]. intros H%append_inv_head.
  apply of_N_inj. by apply (digits_inv_tail _ _ "png" "."); try apply digits_of_N.
Qed.

(** X9.  Multipart uploads at different clock readings never disturb each
    other: after both, each file holds the bytes of its own upload under its
    own name. *)
Theorem X9_uploads_at_different_times_coexist fs t1 t2 req1 req2 resp1 resp2 fs1 fs2 :
  routed_to POST "/api/screenshot" req1 ->
  routed_to POST "/api/screenshot" req2 ->
  t1 <> t2 ->
  app fs t1 req1 = (resp1, fs1) -> status resp1 = 200%N ->
  app fs1 t2 req2 = (resp2, fs2) -> status resp2 = 200%N ->
  exists data1 data2,
    uploaded_bytes req1 = Some data1
    /\ uploaded_bytes req2 = Some data2
    /\ Fs.read fs2 (Path.join uploadsDir (filename storage t1)) = Some data1
    /\ Fs.read fs2 (Path.join uploadsDir (filename storage t2)) = Some data2.
Proof.
  intros Hr1 Hr2 Hne Happ1 Hst1 Happ2 Hst2.
  destruct (multipart_success _ _ _ _ _ Hr1 Happ1 Hst1) as (data1 & _ & Hh1 & Hu1).
  destruct (multipart_success _ _ _ _ _ Hr2 Happ2 Hst2) as (data2 & _ & Hh2 & Hu2).
  destruct (multipart_outcome _ _ _ _ _ Hr2 Happ2)
    as [(_ & data2' & _ & _ & Hfs2)|[Hbad _]]; [|by destruct Hbad].
  exists data1, data2. do 2 (split; [done|]).
  split; [|by apply read_holds].
  apply read_holds. destruct Hh1 as (Hn & Ht & Hs & Hl).
  repeat split; try done.
  rewrite Hfs2, lookup_insert_ne; [done|].
  rewrite generated_path. intros E. apply Hne. symmetry.
  apply generated_name_inj. revert E.
  generalize (filename storage t1), (filename storage t2).
  intros a b [= E]%app_inv_head. done.
Qed.


(** ** More on the base64 endpoint *)

Lemma base64_outcome fs now req resp fs' :
  routed_to POST "/api/screenshot/base64" req ->
  app fs now req = (resp, fs') ->
  status resp = 200%N ->
  exists b name data,
    payload_of req = Parsed b
    /\ final_filename (prop "filename" b) now = JStr name
    /\ uploaded_bytes req = Some data
    /\ fs' = <[Path.segments (Path.join uploadsDir name) := File data]> fs.
Proof.
  intros Hr Happ Hst.
  destruct (base64_success _ _ _ _ _ Hr Happ Hst)
    as (b & name & data & Hp & Hf & _ & _ & Hu).
  exists b, name, data. do 3 (split; [done|]).
  rewrite (app_base64 _ _ _ _ Hr Hp) in Happ.
  unfold uploaded_bytes in Hu. rewrite Hp in Hu.
  destruct (prop "image" b) as [[ |?|?|s|?|?]|] eqn:Hi; try discriminate.
  assert (s <> "") as Hs.
  { intros ->. rewrite base64_handler_falsy in Happ by (by rewrite Hi).
    inversion Happ; subst. discriminate. }
  rewrite (base64_handler_string fs now b s name Hi Hs Hf) in Happ.
  inversion Hu; subst data.
  destruct (Fs.writeFileSync _ _ _) as [fs1|e] eqn:W.
  - apply write_ok in W as [-> _]. by inversion Happ.
  - inversion Happ; subst. discriminate.
Qed.

(** X10.  A successful base64 upload whose file name is generated, or is a
    plain name supplied by the client, writes exactly one file, directly
    inside the uploads directory, replacing whatever was stored under that
    name; every other path is untouched. *)
Theorem X10_plain_base64_upload_stays_inside_root fs now req resp fs' :
  routed_to POST "/api/screenshot/base64" req ->
  client_name_plain req = true ->
  app fs now req = (resp, fs') ->
  status resp = 200%N ->
  exists name data,
    plain_name name = true
    /\ uploaded_bytes req = Some data
    /\ fs' = <[__dirname ++ ["uploads"; name] := File data]> fs
    /\ Path.inside (Path.segments uploadsDir) (__dirname ++ ["uploads"; name]).
Proof.
  intros Hr Hc Happ Hst.
  destruct (base64_outcome _ _ _ _ _ Hr Happ Hst) as (b & name & data & Hp & Hf & Hu & Hfs).
  assert (plain_name name = true) as Hn.
  { unfold client_name_plain in Hc. rewrite Hp in Hc. unfold final_filename in Hf.
    destruct (prop "filename" b) as [v|] eqn:Hv.
    - destruct (truthy (Some v)) eqn:Ht.
      + subst v. simpl in Ht. apply negb_true_iff in Ht. by rewrite Ht in Hc.
      + inversion Hf. apply generated_name_plain.
    - inversion Hf. apply generated_name_plain. }
  exists name, data. do 2 (split; [done|]).
  rewrite (join_plain _ _ Hn) in Hfs. cbn [Path.segments] in Hfs.
  rewrite uploadsDir_segments, <- app_assoc in Hfs. split; [done|].
  exists [name]. split; [done|]. by rewrite uploadsDir_segments, <- app_assoc.
Qed.

(** X11.  A POST to /api/screenshot that is not multipart (a JSON or
    urlencoded body, or none) passes through multer untouched and gets the
    no-file reply: HTTP 400 echoing the parsed body and the headers. *)
Theorem X11_non_multipart_screenshot_post_is_rejected fs now req b :
  routed_to POST "/api/screenshot" req ->
  body_parsers req = Ok b ->
  (forall parts, payload_of req <> Multipart parts) ->
  exists resp, app fs now req = (resp, fs) /\ no_file_reply req b resp.
Proof.
  intros Hr Hb Hm. rewrite (app_post fs now req b); [|by destruct Hr|done].
  rewrite (routes_screenshot _ _ _ _ Hr). unfold Multer.single.
  destruct (payload_of req) as [| | |parts] eqn:Hp; try by destruct (Hm parts).
  all: eexists; split; [reflexivity|]; by split.
Qed.

(** X12.  A truthy [image] that is not a string (a number, [true], an array,
    an object), or a truthy [filename] that is not a string, makes the
    handler throw a TypeError, which its catch block answers with HTTP 500
    'Internal server error'; nothing is written. *)
Theorem X12_non_string_fields_are_internal_errors fs now req b :
  routed_to POST "/api/screenshot/base64" req ->
  payload_of req = Parsed b ->
  truthy (prop "image" b) = true ->
  (forall s, prop "image" b <> Some (JStr s))
  \/ (truthy (prop "filename" b) = true /\ forall f, prop "filename" b <> Some (JStr f)) ->
  exists resp message,
    app fs now req = (resp, fs)
    /\ status resp = 500%N
    /\ body resp = JsonBody (envelope "Internal server error" message).
Proof.
  intros Hr Hp Ht Hbad. rewrite (app_base64 _ _ _ _ Hr Hp).
  unfold base64_handler. rewrite Ht. cbn [negb].
  destruct (prop "image" b) as [[ |?|?|s|?|?]|] eqn:Hi; try discriminate;
    try (eexists _, _; split; [reflexivity|]; by split).
  destruct Hbad as [Hbad|[Hf Hbad]]; [by destruct (Hbad s)|].
  cbn [replace_prefix]. unfold final_filename.
  destruct (prop "filename" b) as [v|] eqn:Hv; [|discriminate].
  rewrite Hf.
  destruct v as [ |?|?|f|?|?]; try (eexists _, _; split; [reflexivity|]; by split).
  by destruct (Hbad f).
Qed.

(** ** Cross-cutting middleware *)

(** X13.  Every response of the application, whatever the request and
    whatever its outcome (success, error, 404, preflight), carries the
    header [Access-Control-Allow-Origin: *]. *)
Theorem X13_every_response_allows_all_origins fs now req :
  assoc "Access-Control-Allow-Origin" (resp_headers (fst (app fs now req))) = Some "*".
Proof.
  unfold app.
  assert (forall r, assoc "Access-Control-Allow-Origin" (resp_headers (finish req r)) = Some "*")
    as Hfin by (intros r; unfold finish; by destruct (method req)).
  destruct (method req); try done;
    (destruct (body_parsers req) as [b|e]; [|apply Hfin];
     destruct (routes fs now req b); apply Hfin).
Qed.

(** X14.  A body the JSON/urlencoded parsers reject is answered by the error
    middleware with HTTP 500 'Internal server error' carrying the parser's
    message, on every path, before any route is tried; nothing is written. *)
Theorem X14_rejected_body_is_a_500_on_every_route fs now req message :
  payload_of req = Rejected message ->
  method req <> OPTIONS ->
  method req <> HEAD ->
  exists resp,
    app fs now req = (resp, fs)
    /\ status resp = 500%N
    /\ body resp = JsonBody (envelope "Internal server error" message).
Proof.
  intros Hp Ho Hh. unfold app, body_parsers. rewrite Hp.
  rewrite finish_not_head by done.
  destruct (method req); try done; (eexists; split; [reflexivity|]; by split).
Qed.


(** ** More on retrieval *)

Lemma uploads_path_is_no_handler_route fs now name body :
  plain_name name = true ->
  serve_uploads fs (get_request ("/uploads/" +:+ name)) = None ->
  routes fs now (get_request ("/uploads/" +:+ name)) body = (not_found, fs).
Proof.
  intros Hn Hs. unfold routes. rewrite Hs.
  unfold route_matches. cbn [get_request url method method_matches andb].
  rewrite (pathname_uploads _ Hn). unfold path_matches.
  change ("/uploads/" +:+ name)
    with (String "/" (String "u" (String "p" (String "l" (String "o"
           (String "a" (String "d" (String "s" (String "/" name))))))))).
  reflexivity.
Qed.

(** X15.  A GET of [/uploads/<name>] for a plain name under which nothing
    is stored falls through the static route to the application's own 404
    handler: HTTP 404 with success=false and the endpoint list. *)
Theorem X15_missing_file_gets_the_json_404 fs now name :
  plain_name name = true ->
  Fs.node_at fs (Path.segments uploadsDir ++ [name]) = None ->
  exists resp,
    app fs now (get_request ("/uploads/" +:+ name)) = (resp, fs)
    /\ not_found_reply resp.
Proof.
  intros Hn Hnone.
  assert (serve_uploads fs (get_request ("/uploads/" +:+ name)) = None) as Hs.
  { unfold serve_uploads. cbn [get_request method url].
    rewrite (pathname_uploads _ Hn), below_mount_uploads.
    assert (Static.send fs uploadsDir (String "/" name) = Static.Next) as ->; [|done].
    unfold Static.send.
    pose proof (plain_name_all _ Hn) as Hall.
    pose proof (plain_name_not_dots _ Hn) as (E1 & E2 & E3).
    assert (Url.decode (String "/" name) = Some (String "/" name)) as ->.
    { simpl. rewrite (decode_absent plain_char); [done| |done].
      intros c Hc. by apply plain_char_not. }
    assert (Str.contains "000" (String "/" name) = false) as ->.
    { unfold Str.contains. simpl. apply negb_false_iff.
      apply (all_impl plain_char); [|done].
      intros c Hc. apply negb_true_iff. by apply plain_char_not. }
    assert (Path.normalize_rel (String "/" name) = [name]) as ->.
    { unfold Path.normalize_rel. simpl.
      rewrite (split_on_absent _ _ (plain_name_no_slash _ Hn)). simpl.
      unfold Path.walk_rel. by rewrite E1, E2, E3. }
    assert (Str.ends_with_char "/" (String "/" name) = false) as ->.
    { unfold Str.ends_with_char.
      rewrite last_char_cons by (by apply plain_name_nonempty).
      exact (plain_name_not_trailing _ Hn). }
    cbn [existsb]. rewrite String.eqb_sym, E3. cbn [orb].
    assert (Static.dot_ignored [name] false = false) as ->.
    { unfold Static.dot_ignored, Static.is_dotfile. cbn [existsb].
      unfold plain_name in Hn. apply andb_true_iff in Hn as [_ Hd].
      apply negb_true_iff in Hd. by rewrite Hd. }
    unfold Fs.statSync. cbn [Path.segments Path.trailing_sep]. rewrite Hnone.
    by destruct (Fs.has_nul _). }
  unfold app. cbn [get_request method payload_of body_parsers].
  fold (get_request ("/uploads/" +:+ name)).
  rewrite (uploads_path_is_no_handler_route _ _ _ _ Hn Hs).
  eexists. split; [reflexivity|]. by split.
Qed.

Lemma send_stays_below_root fs root p data :
  Static.send fs root p = Static.SendFile data ->
  exists rest, Fs.node_at fs (Path.segments root ++ rest) = Some (File data).
Proof.
  unfold Static.send. intros H.
  repeat match type of H with
         | match ?x with _ => _ end = _ => destruct x eqn:?; try discriminate
         | (if ?x then _ else _) = _ => destruct x eqn:?; try discriminate
         end.
  all: inversion H; subst;
    match goal with
    | Hr : Fs.read _ ?q = Some _ |- _ =>
        unfold Fs.read in Hr;
        destruct (Fs.node_at fs (Path.segments q)) as [[d|]|] eqn:En; try discriminate;
        inversion Hr; subst
    end.
  - eexists (_ ++ ["index.html"]). rewrite app_assoc. exact En.
  - eexists. exact En.
Qed.

(** X16.  The server never sends the content of a file from outside the
    uploads directory: whenever a response carries file bytes, they are the
    content of a file stored at or below the storage root. *)
Theorem X16_served_files_lie_below_the_root fs now req data :
  body (fst (app fs now req)) = FileBody data ->
  exists rest, Fs.node_at fs (Path.segments uploadsDir ++ rest) = Some (File data).
Proof.
  unfold app.
  assert (forall r, body (finish req r) = FileBody data -> body r = FileBody data) as Hfin.
  { intros r. unfold finish. by destruct (method req). }
  assert (forall b, body (fst (routes fs now req b)) = FileBody data ->
            exists rest, Fs.node_at fs (Path.segments uploadsDir ++ rest) = Some (File data))
    as Hroutes.
  { intros b. unfold routes.
    destruct (serve_uploads fs req) as [r|] eqn:Hs.
    - cbn [fst]. intros Hb. unfold serve_uploads in Hs.
      destruct (method req); try discriminate;
        (destruct (below_mount _ _) as [rest|]; [|discriminate];
         destruct (Static.send fs uploadsDir rest) as [|d|] eqn:Hsend; try discriminate;
         [inversion Hs; subst; cbn in Hb; inversion Hb; subst;
          exact (send_stays_below_root fs uploadsDir rest _ Hsend)
         |inversion Hs; subst; discriminate]).
    - repeat match goal with |- context [if ?c then _ else _] => destruct c end;
        try discriminate.
      + destruct (Multer.single _ _ _ _ _ _) as [[[file body']|e] fs'].
        * destruct file; discriminate.
        * destruct e as [| | |[]|]; discriminate.
      + unfold base64_handler.
        repeat match goal with
               | |- context [if ?c then _ else _] => destruct c
               | |- context [match ?x with _ => _ end] => destruct x
               end; discriminate. }
  destruct (method req) eqn:Em; try discriminate;
    (destruct (body_parsers req) as [b|e];
     [specialize (Hroutes b); destruct (routes fs now req b) as [r fs'];
      intros Hb%Hfin; by apply Hroutes
     |intros Hb%Hfin; destruct e as [| | |[]|]; discriminate]).
Qed.


(** ** The data-URL prefix and the single-file rule *)

Lemma drop_prefix_app p s : Str.drop_prefix p (p +:+ s) = Some s.
Proof.
  induction p as [|c p IH]; [done|].
  rewrite append_cons. simpl. by rewrite Ascii.eqb_refl.
Qed.

Lemma drop_while_run f t c r :
  Str.all f t = true -> f c = false ->
  Str.drop_while f (t +:+ String c r) = String c r.
Proof.
  intros Ht Hc. induction t as [|x t IH].
  - change ("" +:+ String c r) with (String c r). simpl. by rewrite Hc.
  - rewrite append_cons. simpl in *. apply andb_true_iff in Ht as [-> Ht]. by apply IH.
Qed.

Lemma drop_while_split f s :
  exists t, Str.all f t = true /\ s = t +:+ Str.drop_while f s.
Proof.
  induction s as [|c s (t & Ht & Hs)]; [by exists ""|]. simpl.
  destruct (f c) eqn:Fc.
  - exists (String c t). simpl. rewrite Fc, Ht. split; [done|].
    rewrite append_cons. by f_equal.
  - by exists "".
Qed.

(** X17.  The prefix removed from [image] is exactly a leading
    ['data:image/<type>;base64,'] whose type is one or more lowercase
    letters: such a prefix is always removed, and any other string (a type
    with a digit, '+' or upper case, or no prefix) is left unchanged. *)
Theorem X17_prefix_is_stripped_exactly_for_lowercase_types :
  (forall t P,
      t <> "" -> Str.all Str.is_lower t = true ->
      strip_data_url_prefix ("data:image/" +:+ t +:+ ";base64," +:+ P) = P)
  /\ (forall image,
         strip_data_url_prefix image = image
         \/ exists t P,
              t <> "" /\ Str.all Str.is_lower t = true
              /\ image = "data:image/" +:+ t +:+ ";base64," +:+ P
              /\ strip_data_url_prefix image = P).
Proof.
  assert (forall t P,
             t <> "" -> Str.all Str.is_lower t = true ->
             strip_data_url_prefix ("data:image/" +:+ t +:+ ";base64," +:+ P) = P) as Hstrip.
  { intros t P Hne Ht. unfold strip_data_url_prefix. rewrite drop_prefix_app.
    destruct t as [|c t]; [done|]. rewrite append_cons.
    pose proof Ht as Ht'. simpl in Ht'. apply andb_true_iff in Ht' as [-> _].
    rewrite <- append_cons.
    change (";base64," +:+ P) with (String ";" ("base64," +:+ P)).
    rewrite (drop_while_run Str.is_lower _ ";" _ Ht eq_refl).
    change (String ";" ("base64," +:+ P)) with (";base64," +:+ P).
    by rewrite drop_prefix_app. }
  split; [exact Hstrip|].
  intros image. unfold strip_data_url_prefix.
  destruct (Str.drop_prefix "data:image/" image) as [[|c r]|] eqn:E; try by left.
  destruct (Str.is_lower c) eqn:Hc; [|by left].
  destruct (Str.drop_prefix ";base64," (Str.drop_while Str.is_lower (String c r)))
    as [P|] eqn:E2; [|by left].
  right. apply drop_prefix_spec in E, E2.
  destruct (drop_while_split Str.is_lower (String c r)) as (t & Ht & Hs).
  rewrite E2 in Hs. exists t, P.
  assert (t <> "") as Hne.
  { intros ->. change ("" +:+ ";base64," +:+ P) with (String ";" ("base64," +:+ P)) in Hs.
    inversion Hs; subst. discriminate. }
  split; [done|]. split; [done|]. split; [by rewrite E, Hs|done].
Qed.

Lemma run_second_file opts name now rest body files fs :
  existsb carries_file rest = true ->
  exists f,
    Multer.run appendField opts name now rest 0 body files fs
    = (Throw (MulterError LIMIT_UNEXPECTED_FILE f), Multer.remove_uploaded files fs).
Proof.
  revert body. induction rest as [|p rest IH]; intros body; [done|]. simpl.
  destruct p as [k v|fname oname mime content]; simpl.
  - apply IH.
  - destruct (String.eqb oname ""); simpl; [apply IH|].
    intros _. rewrite orb_true_r. by eexists.
Qed.

(** X18.  The endpoint accepts a single file.  When a second file follows
    an accepted first one (an image in the [screenshot] field, below the
    size limit and written to the storage) in the same request, the request
    fails with HTTP 500 'Unexpected field' and the first file, already
    written, is removed again. *)
Theorem X18_second_file_fails_the_whole_upload
    fs now req pre rest oname mime content :
  routed_to POST "/api/screenshot" req ->
  payload_of req = Multipart (pre ++ FilePart "screenshot" oname mime content :: rest) ->
  existsb carries_file pre = false ->
  oname <> "" ->
  Str.starts_with "image/" mime = true ->
  (N.of_nat (length content) < 10 * 1024 * 1024)%N ->
  Fs.open_w fs (Path.join uploadsDir (filename storage now)) = None ->
  existsb carries_file rest = true ->
  exists resp,
    app fs now req
    = (resp, delete (__dirname ++ ["uploads"; "screenshot-" +:+ Str.of_N now +:+ ".png"]) fs)
    /\ status resp = 500%N
    /\ body resp = JsonBody (envelope "Internal server error" "Unexpected field").
Proof.
  intros Hr Hp Hpre Hname Hm Hsz Hw Hrest.
  rewrite (app_screenshot _ _ _ _ Hr Hp), (run_text _ _ _ _ _ _ _ _ _ Hpre).
  cbn [Multer.run].
  assert (String.eqb oname "" = false) as ->.
  { destruct (String.eqb oname "") eqn:E; [|done]. by apply String.eqb_eq in E. }
  change (negb ("screenshot" =? "screenshot")%string || Nat.eqb 1 0) with false.
  cbv zeta. cbn [fileFilter_of upload fi_mimetype]. rewrite Hm.
  cbn [storage_of limits_fileSize upload destination].
  assert ((10 * 1024 * 1024 <=? N.of_nat (length content))%N = false) as ->
    by (by apply N.leb_gt).
  change (destination storage) with uploadsDir. change (1 - 1)%nat with 0%nat.
  unfold Fs.writeFileSync at 1. rewrite Hw.
  destruct (run_second_file upload "screenshot" now rest (add_fields (JObj []) pre)
              ([] ++ [{| up_info := {| fi_fieldname := "screenshot";
                                      fi_originalname := oname; fi_mimetype := mime |};
                         up_destination := uploadsDir;
                         up_filename := filename storage now;
                         up_path := Path.join uploadsDir (filename storage now);
                         up_size := N.of_nat (length content) |}])
              (<[Path.segments (Path.join uploadsDir (filename storage now))
                 := File content]> fs) Hrest) as [f ->].
  unfold Multer.remove_uploaded. cbn [fold_left Datatypes.app up_path].
  rewrite (unlink_written fs _ content) by (unfold Fs.writeFileSync; by rewrite Hw).
  rewrite generated_path.
  eexists. split; [reflexivity|]. by split.
Qed.

(** X19.  The size limit is exclusive: an image of exactly 10 MiB in the
    [screenshot] field is rejected like a larger one, with HTTP 400 'File
    too large', and what was written of it is removed again. *)
Theorem X19_image_of_exactly_the_limit_is_rejected
    fs now req parts oname mime content :
  routed_to POST "/api/screenshot" req ->
  payload_of req = Multipart parts ->
  find carries_file parts = Some (FilePart "screenshot" oname mime content) ->
  Str.starts_with "image/" mime = true ->
  N.of_nat (length content) = (10 * 1024 * 1024)%N ->
  Fs.open_w fs (Path.join uploadsDir (filename storage now)) = None ->
  exists resp fs',
    app fs now req = (resp, fs')
    /\ too_large_reply resp
    /\ fs' !! Path.segments (Path.join uploadsDir (filename storage now)) = None.
Proof.
  intros Hr Hp Hf Hm Hsz Hw. rewrite (app_screenshot _ _ _ _ Hr Hp).
  destruct (run_first_file now _ _ _ _ _ fs Hf) as (pre & rest & _ & _ & ->).
  cbv zeta. change (negb ("screenshot" =? "screenshot")%string) with false.
  cbn match. rewrite Hm, Hsz, N.leb_refl.
  destruct (Fs.writeFileSync _ _ _) as [fs1|e] eqn:W.
  - eexists _, _. split; [reflexivity|]. split; [by split|].
    apply write_ok in W as [_ W]. unfold Fs.unlink.
    rewrite (node_at_holds _ _ _ W). apply lookup_delete_eq.
  - unfold Fs.writeFileSync in W. by rewrite Hw in W.
Qed.

End Server.

(** * Concrete runs *)

(** Starting the server on an empty disk creates exactly the directories
    of [fresh]. *)
Lemma startup_on_empty_disk :
  match startup site ∅ with
  | Ok fs => map_to_list fs
  | Throw _ => []
  end = map_to_list fresh.
Proof. vm_compute. reflexivity. Qed.

Lemma C1_witness :
  let req := post "/api/screenshot"
               (Multipart [Field "page" "home";
                           FilePart "screenshot" "test.png" "image/png" png_bytes]) in
  let out := app site AppendField.appendField fresh 1700000000000 req in
  (routed_to POST "/api/screenshot" req \/ routed_to POST "/api/screenshot/base64" req)
  /\ status (fst out) = 200%N
  /\ exists name data,
       body (fst out) = JsonBody (descriptor name (length data))
       /\ Fs.read (snd out) (Path.join (uploadsDir site) name) = Some data
       /\ Fs.statSync (snd out) (Path.join (uploadsDir site) name)
          = Ok {| st_size := N.of_nat (length data); st_isDirectory := false |}.
Proof.
  intros req out.
  assert (routed_to POST "/api/screenshot" req
          \/ routed_to POST "/api/screenshot/base64" req) as Hr
    by (left; split; reflexivity).
  assert (status (fst out) = 200%N) as Hs by (vm_compute; reflexivity).
  split; [exact Hr|]. split; [exact Hs|].
  exact (C1_size_equals_stored_length site AppendField.appendField fresh 1700000000000 req (fst out) (snd out)
           Hr (surjective_pairing out) Hs).
Defined.

Lemma C2_witness :
  let req := post "/api/screenshot/base64"
               (Parsed (JObj [("image", JStr "data:image/png;base64,iVBORw0KGgo=");
                              ("filename", JStr "shot-1.png")])) in
  let out := app site AppendField.appendField fresh 1700000000000 req in
  status (fst out) = 200%N
  /\ exists name data,
       body (fst out) = JsonBody (descriptor name (length data))
       /\ uploaded_bytes req = Some data
       /\ Fs.read (snd out) (Path.join (uploadsDir site) name) = Some data
       /\ round_trips site AppendField.appendField (snd out) (fst out) data
       /\ forall now', app site AppendField.appendField (snd out) now' (get_request ("/uploads/" +:+ name))
                       = (file_response data, snd out).
Proof.
  intros req out.
  assert (status (fst out) = 200%N) as Hs by (vm_compute; reflexivity).
  split; [exact Hs|].
  refine (C2_upload_then_get_round_trips site AppendField.appendField fresh 1700000000000 req (fst out) (snd out)
            _ _ (surjective_pairing out) Hs).
  - right. split; reflexivity.
  - vm_compute. reflexivity.
Defined.

(** C2 fails for a client-supplied name that leaves the storage root: the
    upload succeeds, and a GET of the returned URL is answered 404. *)
Lemma C2_counterexample :
  let req := post "/api/screenshot/base64"
               (Parsed (JObj [("image", JStr "QUJD");
                              ("filename", JStr "../evil.png")])) in
  let out := app site AppendField.appendField fresh 1700000000000 req in
  status (fst out) = 200%N
  /\ prop "url" (descriptor "../evil.png" 3) = Some (JStr "/uploads/../evil.png")
  /\ body (fst out) = JsonBody (descriptor "../evil.png" 3)
  /\ uploaded_bytes req = Some ["A"%byte; "B"%byte; "C"%byte]
  /\ status (fst (app site AppendField.appendField (snd out) 1700000000001 (get_request "/uploads/../evil.png")))
     = 404%N
  /\ ~ round_trips site AppendField.appendField (snd out) (fst out) ["A"%byte; "B"%byte; "C"%byte].
Proof.
  intros req out.
  assert (body (fst out) = JsonBody (descriptor "../evil.png" 3)) as Hb
    by (vm_compute; reflexivity).
  do 5 (split; [vm_compute; reflexivity|]).
  intros H.
  destruct (H _ "/uploads/../evil.png" 1700000000001%N Hb eq_refl) as [Hst _].
  vm_compute in Hst. discriminate Hst.
Qed.

Lemma C3_witness :
  let parts := [Field "tag" "a"; Field "meta[page]" "home"; Field "tag" "b";
                FilePart "screenshot" "" "application/octet-stream" []] in
  let req := post "/api/screenshot" (Multipart parts) in
  find carries_file parts = None
  /\ multipart_body AppendField.appendField parts
     = JObj [("tag", JArr [JStr "a"; JStr "b"]); ("meta", JObj [("page", JStr "home")])]
  /\ exists resp,
       app site AppendField.appendField fresh 1700000000000 req = (resp, fresh)
       /\ no_file_reply req (multipart_body AppendField.appendField parts) resp.
Proof.
  intros parts req.
  assert (find carries_file parts = None) as Hf by reflexivity.
  split; [exact Hf|]. split; [vm_compute; reflexivity|].
  refine (C3_no_file_is_rejected_with_echo site AppendField.appendField fresh
            1700000000000 req parts _ _ Hf).
  - split; reflexivity.
  - reflexivity.
Defined.

(** C3 fails when a file arrives under another field name: multer raises
    'Unexpected field', which the error middleware answers with 500. *)
Lemma C3_counterexample :
  let parts := [FilePart "file" "shot.png" "image/png" png_bytes] in
  let req := post "/api/screenshot" (Multipart parts) in
  let resp := fst (app site AppendField.appendField fresh 1700000000000 req) in
  existsb (in_field "screenshot") parts = false
  /\ status resp = 500%N
  /\ body resp = JsonBody (envelope "Internal server error" "Unexpected field")
  /\ forall received, ~ no_file_reply req received resp.
Proof.
  intros parts req resp.
  do 3 (split; [vm_compute; reflexivity|]).
  intros received [Hst _]. vm_compute in Hst. discriminate Hst.
Qed.

Lemma C4_witness :
  let parts := [FilePart "screenshot" "huge.png" "image/png" oversized] in
  let req := post "/api/screenshot" (Multipart parts) in
  (10 * 1024 * 1024 < N.of_nat (length oversized))%N
  /\ exists resp fs',
       app site AppendField.appendField fresh 1700000000000 req = (resp, fs')
       /\ too_large_reply resp
       /\ fs' !! Path.segments (Path.join (uploadsDir site) (filename (storage site) 1700000000000))
          = None.
Proof.
  intros parts req.
  assert (10 * 1024 * 1024 < N.of_nat (length oversized))%N as Hsz
    by (vm_compute; reflexivity).
  split; [exact Hsz|].
  refine (C4_oversized_image_is_rejected site AppendField.appendField fresh 1700000000000 req parts
            "huge.png" "image/png" oversized _ _ _ _ Hsz _).
  - split; reflexivity.
  - reflexivity.
  - reflexivity.
  - reflexivity.
  - vm_compute. reflexivity.
Defined.

(** C4 fails for an oversized file that is not an image: the filter rejects
    it before any byte is counted, and the answer is 500. *)
Lemma C4_counterexample :
  let parts := [FilePart "screenshot" "huge.txt" "text/plain" oversized] in
  let req := post "/api/screenshot" (Multipart parts) in
  let resp := fst (app site AppendField.appendField fresh 1700000000000 req) in
  (10 * 1024 * 1024 < N.of_nat (length oversized))%N
  /\ status resp = 500%N
  /\ body resp = JsonBody (envelope "Internal server error" "Only image files are allowed")
  /\ ~ too_large_reply resp.
Proof.
  intros parts req resp.
  split; [vm_compute; reflexivity|].
  assert (resp = res_set "Access-Control-Allow-Origin" "*"
                   (res_json 500 (envelope "Internal server error"
                                           "Only image files are allowed"))) as ->.
  { unfold resp.
    by rewrite (app_filter_rejects site AppendField.appendField fresh 1700000000000 req parts
                  "huge.txt" "text/plain" oversized (conj eq_refl eq_refl) eq_refl eq_refl eq_refl). }
  split; [reflexivity|]. split; [reflexivity|].
  intros [Hst _]. discriminate Hst.
Qed.

Lemma C5_witness :
  let parts := [Field "page" "home";
                FilePart "screenshot" "notes.txt" "text/plain" ["h"%byte; "i"%byte]] in
  let req := post "/api/screenshot" (Multipart parts) in
  Str.starts_with "image/" "text/plain" = false
  /\ exists resp,
       app site AppendField.appendField fresh 1700000000000 req = (resp, fresh)
       /\ status resp = 500%N
       /\ body resp = JsonBody (envelope "Internal server error" "Only image files are allowed").
Proof.
  intros parts req.
  split; [reflexivity|].
  refine (C5_non_image_upload_fails_with_500 site AppendField.appendField fresh 1700000000000 req parts
            "notes.txt" "text/plain" _ _ _ _ _).
  - split; reflexivity.
  - reflexivity.
  - reflexivity.
  - reflexivity.
Defined.

(** C5 fails for a file that is no image and arrives under another field
    name: multer refuses the field before the filter sees the file, and the
    500 carries 'Unexpected field'. *)
Lemma C5_counterexample :
  let file := FilePart "file" "notes.txt" "text/plain" ["h"%byte; "i"%byte] in
  let req := post "/api/screenshot" (Multipart [file]) in
  let resp := fst (app site AppendField.appendField fresh 1700000000000 req) in
  routed_to POST "/api/screenshot" req
  /\ find carries_file [file] = Some file
  /\ Str.starts_with "image/" "text/plain" = false
  /\ status resp = 500%N
  /\ body resp = JsonBody (envelope "Internal server error" "Unexpected field")
  /\ body resp <> JsonBody (envelope "Internal server error" "Only image files are allowed").
Proof.
  intros file req resp.
  split; [split; reflexivity|].
  do 4 (split; [vm_compute; reflexivity|]).
  intros H. vm_compute in H. discriminate H.
Qed.

Lemma C6_witness :
  let req := post "/api/screenshot/base64" NoPayload in
  let rest := [("filename", JStr "shot.png")] in
  Base64.is_payload "iVBORw0KGgo=" = true
  /\ prefix_is_noop site AppendField.appendField fresh 1700000000000 req rest "iVBORw0KGgo="
  /\ app site AppendField.appendField fresh 1700000000000
       (with_body req (image_body ("data:image/png;base64," +:+ "iVBORw0KGgo=") rest))
     = app site AppendField.appendField fresh 1700000000000 (with_body req (image_body "iVBORw0KGgo=" rest))
  /\ (forall resp fs',
        app site AppendField.appendField fresh 1700000000000 (with_body req (image_body "iVBORw0KGgo=" rest))
        = (resp, fs') ->
        status resp = 200%N ->
        stored_by site AppendField.appendField fresh 1700000000000
          (with_body req (image_body ("data:image/png;base64," +:+ "iVBORw0KGgo=") rest))
        = Some (Base64.decode "iVBORw0KGgo=")).
Proof.
  intros req rest.
  assert (Base64.is_payload "iVBORw0KGgo=" = true) as HP by reflexivity.
  split; [exact HP|].
  refine (C6_prefix_stripping_is_noop site AppendField.appendField fresh 1700000000000 req rest "iVBORw0KGgo="
            _ HP _).
  - split; reflexivity.
  - discriminate.
Defined.

(** C6 fails for the empty payload: the bare prefix is a non-empty string
    and stores an empty file, the empty string is rejected and stores
    nothing. *)
Lemma C6_counterexample :
  let req := post "/api/screenshot/base64" NoPayload in
  Base64.is_payload "" = true
  /\ stored_by site AppendField.appendField fresh 1700000000000
       (with_body req (image_body ("data:image/png;base64," +:+ "") [])) = Some []
  /\ stored_by site AppendField.appendField fresh 1700000000000 (with_body req (image_body "" [])) = None
  /\ ~ prefix_is_noop site AppendField.appendField fresh 1700000000000 req [] "".
Proof.
  intros req.
  do 3 (split; [vm_compute; reflexivity|]).
  unfold prefix_is_noop. intros H. vm_compute in H. discriminate H.
Qed.

Lemma C7_witness :
  let req := {| method := GET; url := "/api/status?verbose=1"; headers := [];
                payload_of := NoPayload |} in
  handled site fresh req = false
  /\ exists resp, app site AppendField.appendField fresh 1700000000000 req = (resp, fresh) /\ not_found_reply resp.
Proof.
  intros req.
  assert (handled site fresh req = false) as Hh by (vm_compute; reflexivity).
  split; [exact Hh|].
  refine (C7_unmatched_request_gets_404_with_endpoints site AppendField.appendField fresh 1700000000000 req
            _ _ _ Hh); discriminate.
Defined.

(** C7 fails for a CORS preflight: OPTIONS on an unknown path is answered
    204 by the CORS middleware and never reaches the 404 handler. *)
Lemma C7_counterexample :
  let req := {| method := OPTIONS; url := "/api/status"; headers := [];
                payload_of := NoPayload |} in
  let resp := fst (app site AppendField.appendField fresh 1700000000000 req) in
  handled site fresh req = false
  /\ status resp = 204%N
  /\ body resp = EmptyBody
  /\ ~ not_found_reply resp.
Proof.
  intros req resp.
  do 3 (split; [vm_compute; reflexivity|]).
  intros [Hst _]. vm_compute in Hst. discriminate Hst.
Qed.

Lemma C8_witness :
  let req := post "/api/screenshot/base64"
               (Parsed (JObj [("image", JStr "QUJD");
                              ("filename", JStr ("../" +:+ "evil.png"))])) in
  plain_name "evil.png" = true
  /\ exists resp fs',
       app site AppendField.appendField fresh 1700000000000 req = (resp, fs')
       /\ status resp = 200%N
       /\ holds_file fs' (Path.of_segments (site ++ ["evil.png"]))
                     (Base64.decode (strip_data_url_prefix "QUJD"))
       /\ ~ Path.inside (Path.segments (uploadsDir site)) (site ++ ["evil.png"]).
Proof.
  intros req.
  assert (plain_name "evil.png" = true) as Hn by reflexivity.
  split; [exact Hn|].
  refine (C8_client_filename_escapes_storage_root site AppendField.appendField fresh 1700000000000 req _
            "QUJD" "evil.png" _ eq_refl eq_refl _ eq_refl Hn _).
  - split; reflexivity.
  - discriminate.
  - vm_compute. reflexivity.
Defined.

Lemma C9_witness :
  let req := post "/api/screenshot/base64"
               (Parsed (JObj [("image", JStr "!! this is not base64 !!")])) in
  let name := "screenshot-1700000000000.png" in
  let data := Base64.decode (strip_data_url_prefix "!! this is not base64 !!") in
  (exists fs1, Fs.writeFileSync fresh (Path.join (uploadsDir site) name) data = Ok fs1)
  /\ (forall fs1,
        Fs.writeFileSync fresh (Path.join (uploadsDir site) name) data = Ok fs1 ->
        exists resp,
          app site AppendField.appendField fresh 1700000000000 req = (resp, fs1)
          /\ status resp = 200%N
          /\ body resp = JsonBody (descriptor name (length data)))
  /\ (forall resp fs',
        app site AppendField.appendField fresh 1700000000000 req = (resp, fs') ->
        status resp = 500%N ->
        exists e,
          Fs.writeFileSync fresh (Path.join (uploadsDir site) name) data = Throw e
          /\ body resp = JsonBody (envelope "Internal server error" (error_message e))).
Proof.
  intros req name data.
  split.
  - exists (<[Path.segments (Path.join (uploadsDir site) name) := File data]> fresh).
    unfold Fs.writeFileSync.
    assert (Fs.open_w fresh (Path.join (uploadsDir site) name) = None) as ->
      by (vm_compute; reflexivity).
    reflexivity.
  - refine (C9_string_image_never_fails_decoding site AppendField.appendField fresh 1700000000000 req _
              "!! this is not base64 !!" name _ eq_refl eq_refl _ _).
    + split; reflexivity.
    + discriminate.
    + vm_compute. reflexivity.
Defined.

Lemma C10_witness :
  let fields := [("image", JStr ""); ("filename", JStr "shot.png")] in
  let req := post "/api/screenshot/base64" (Parsed (JObj fields)) in
  assoc "image" fields = Some (JStr "")
  /\ (exists resp,
         app site AppendField.appendField fresh 1700000000000 req = (resp, fresh)
         /\ status resp = 400%N
         /\ body resp = JsonBody (JObj [("success", JBool false);
                                        ("error", JStr "No image data received")]))
  /\ app site AppendField.appendField fresh 1700000000000 req
     = app site AppendField.appendField fresh 1700000000000 (with_body req (JObj (without "image" fields))).
Proof.
  intros fields req.
  split; [reflexivity|].
  refine (C10_empty_image_is_rejected_as_absent site AppendField.appendField fresh 1700000000000 req fields
            _ eq_refl eq_refl).
  split; reflexivity.
Defined.

(** ** Concrete runs of the further properties *)

Lemma X1_witness :
  startup site ∅ = Ok fresh
  /\ ∅ ⊆ fresh
  /\ (Fs.node_at fresh (Path.segments (uploadsDir site)) = Some Dir
      \/ (fresh = ∅
          /\ exists data, Fs.node_at ∅ (Path.segments (uploadsDir site)) = Some (File data))).
Proof.
  assert (startup site ∅ = Ok fresh) as H by reflexivity.
  split; [exact H|].
  exact (X1_startup_ensures_uploads_directory site ∅ fresh H).
Defined.

Lemma X2_witness : startup site ∅ = Ok fresh /\ startup site fresh = Ok fresh.
Proof.
  assert (startup site ∅ = Ok fresh) as H by reflexivity.
  split; [exact H|].
  exact (X2_startup_is_idempotent site ∅ fresh H).
Defined.

Lemma X3_witness :
  let req := {| method := GET; url := "/API/Health/?probe=1"; headers := [];
                payload_of := NoPayload |} in
  routed_to GET "/api/health" req
  /\ exists resp,
       app site AppendField.appendField fresh 1700000000000 req = (resp, fresh)
       /\ status resp = 200%N
       /\ body resp = JsonBody (JObj [("status", JStr "healthy");
                                      ("timestamp", JStr (Date.toISOString 1700000000000))]).
Proof.
  intros req.
  assert (routed_to GET "/api/health" req) as Hr by (split; reflexivity).
  split; [exact Hr|].
  refine (proj2 (X3_health_checks_report_and_do_not_write site AppendField.appendField fresh 1700000000000 req _) Hr).
  discriminate.
Defined.

Lemma X4_witness :
  let req := {| method := DELETE; url := "/uploads/screenshot-1.png"; headers := [];
                payload_of := Parsed (JObj [("image", JStr "QUJD")]) |} in
  snd (app site AppendField.appendField fresh 1700000000000 req) = fresh.
Proof.
  intros req.
  refine (X4_only_post_requests_write site AppendField.appendField fresh 1700000000000 req _).
  discriminate.
Defined.

Lemma X5_witness :
  let b := JObj [("image", JStr "QUJD"); ("filename", JStr "missing/dir/shot.png")] in
  let req := post "/api/screenshot/base64" (Parsed b) in
  exists resp,
    app site AppendField.appendField fresh 1700000000000 req = (resp, fresh)
    /\ status resp = 500%N
    /\ body resp
       = JsonBody (envelope "Internal server error"
                    "ENOENT: no such file or directory, open '/srv/api-server/uploads/missing/dir/shot.png'").
Proof.
  intros b req.
  refine (X5_unopenable_target_fails_and_stores_nothing site AppendField.appendField fresh
            1700000000000 req b "QUJD" "missing/dir/shot.png"
            (SystemError ENOENT "open" "/srv/api-server/uploads/missing/dir/shot.png")
            _ eq_refl eq_refl _ eq_refl _).
  - split; reflexivity.
  - discriminate.
  - vm_compute. reflexivity.
Defined.

Lemma X6_witness :
  let req := post "/api/screenshot"
               (Multipart [FilePart "screenshot" "holiday photo.PNG" "image/png" png_bytes]) in
  let out := app site AppendField.appendField fresh 1700000000000 req in
  status (fst out) = 200%N
  /\ exists data,
       uploaded_bytes req = Some data
       /\ snd out
          = <[site ++ ["uploads"; "screenshot-" +:+ Str.of_N 1700000000000 +:+ ".png"]
              := File data]> fresh.
Proof.
  intros req out.
  assert (status (fst out) = 200%N) as Hs by (vm_compute; reflexivity).
  split; [exact Hs|].
  refine (X6_multipart_upload_stores_one_generated_file site AppendField.appendField fresh 1700000000000 req
            (fst out) (snd out) _ (surjective_pairing out) Hs).
  split; reflexivity.
Defined.

Lemma X7_witness :
  let req := post "/api/screenshot"
               (Multipart [FilePart "screenshot" "notes.txt" "text/plain" png_bytes]) in
  let out := app site AppendField.appendField fresh 1700000000000 req in
  status (fst out) = 500%N
  /\ (snd out = fresh
      \/ snd out
         = delete (site ++ ["uploads"; "screenshot-" +:+ Str.of_N 1700000000000 +:+ ".png"])
                  fresh).
Proof.
  intros req out.
  assert (status (fst out) = 500%N) as Hs by (vm_compute; reflexivity).
  split; [exact Hs|].
  refine (X7_failed_multipart_upload_leaves_no_file site AppendField.appendField fresh 1700000000000 req
            (fst out) (snd out) _ (surjective_pairing out) _).
  - split; reflexivity.
  - rewrite Hs. discriminate.
Defined.

Lemma X8_witness :
  let req1 := post "/api/screenshot"
                (Multipart [FilePart "screenshot" "a.png" "image/png" png_bytes]) in
  let req2 := post "/api/screenshot"
                (Multipart [FilePart "screenshot" "b.png" "image/png" ["b"%byte]]) in
  let out1 := app site AppendField.appendField fresh 1700000000000 req1 in
  let out2 := app site AppendField.appendField (snd out1) 1700000000000 req2 in
  status (fst out1) = 200%N
  /\ status (fst out2) = 200%N
  /\ exists (name : string) (data1 data2 : list byte),
       body (fst out1) = JsonBody (descriptor name (length data1))
       /\ body (fst out2) = JsonBody (descriptor name (length data2))
       /\ uploaded_bytes req2 = Some data2
       /\ snd out2 = <[site ++ ["uploads"; name] := File data2]> fresh.
Proof.
  intros req1 req2 out1 out2.
  assert (status (fst out1) = 200%N) as Hs1 by (vm_compute; reflexivity).
  assert (status (fst out2) = 200%N) as Hs2 by (vm_compute; reflexivity).
  split; [exact Hs1|]. split; [exact Hs2|].
  refine (X8_same_millisecond_uploads_collide site AppendField.appendField fresh 1700000000000 req1 req2
            (fst out1) (fst out2) (snd out1) (snd out2)
            _ _ (surjective_pairing out1) Hs1 (surjective_pairing out2) Hs2);
    split; reflexivity.
Defined.

Lemma X9_witness :
  let req1 := post "/api/screenshot"
                (Multipart [FilePart "screenshot" "a.png" "image/png" png_bytes]) in
  let req2 := post "/api/screenshot"
                (Multipart [FilePart "screenshot" "b.png" "image/png" ["b"%byte]]) in
  let out1 := app site AppendField.appendField fresh 1700000000000 req1 in
  let out2 := app site AppendField.appendField (snd out1) 1700000000001 req2 in
  status (fst out1) = 200%N
  /\ status (fst out2) = 200%N
  /\ exists data1 data2,
       uploaded_bytes req1 = Some data1
       /\ uploaded_bytes req2 = Some data2
       /\ Fs.read (snd out2) (Path.join (uploadsDir site) (filename (storage site) 1700000000000))
          = Some data1
       /\ Fs.read (snd out2) (Path.join (uploadsDir site) (filename (storage site) 1700000000001))
          = Some data2.
Proof.
  intros req1 req2 out1 out2.
  assert (status (fst out1) = 200%N) as Hs1 by (vm_compute; reflexivity).
  assert (status (fst out2) = 200%N) as Hs2 by (vm_compute; reflexivity).
  split; [exact Hs1|]. split; [exact Hs2|].
  refine (X9_uploads_at_different_times_coexist site AppendField.appendField fresh 1700000000000 1700000000001
            req1 req2 (fst out1) (fst out2) (snd out1) (snd out2)
            _ _ _ (surjective_pairing out1) Hs1 (surjective_pairing out2) Hs2).
  - split; reflexivity.
  - split; reflexivity.
  - discriminate.
Defined.

Lemma X10_witness :
  let req := post "/api/screenshot/base64"
               (Parsed (JObj [("image", JStr "QUJD"); ("filename", JNull)])) in
  let out := app site AppendField.appendField fresh 1700000000000 req in
  status (fst out) = 200%N
  /\ exists name data,
       plain_name name = true
       /\ uploaded_bytes req = Some data
       /\ snd out = <[site ++ ["uploads"; name] := File data]> fresh
       /\ Path.inside (Path.segments (uploadsDir site)) (site ++ ["uploads"; name]).
Proof.
  intros req out.
  assert (status (fst out) = 200%N) as Hs by (vm_compute; reflexivity).
  split; [exact Hs|].
  refine (X10_plain_base64_upload_stays_inside_root site AppendField.appendField fresh 1700000000000 req
            (fst out) (snd out) _ _ (surjective_pairing out) Hs).
  - split; reflexivity.
  - reflexivity.
Defined.

Lemma X11_witness :
  let b := JObj [("image", JStr "QUJD")] in
  let req := post "/api/screenshot" (Parsed b) in
  exists resp, app site AppendField.appendField fresh 1700000000000 req = (resp, fresh) /\ no_file_reply req b resp.
Proof.
  intros b req.
  refine (X11_non_multipart_screenshot_post_is_rejected site AppendField.appendField fresh 1700000000000 req b
            _ eq_refl _).
  - split; reflexivity.
  - discriminate.
Defined.

Lemma X12_witness :
  let b := JObj [("image", JNum 5)] in
  let req := post "/api/screenshot/base64" (Parsed b) in
  exists resp message,
    app site AppendField.appendField fresh 1700000000000 req = (resp, fresh)
    /\ status resp = 500%N
    /\ body resp = JsonBody (envelope "Internal server error" message).
Proof.
  intros b req.
  refine (X12_non_string_fields_are_internal_errors site AppendField.appendField fresh 1700000000000 req b
            _ eq_refl eq_refl _).
  - split; reflexivity.
  - left. discriminate.
Defined.

Lemma X14_witness :
  let req := {| method := GET; url := "/api/health"; headers := [];
                payload_of := Rejected "Unexpected token } in JSON at position 9" |} in
  exists resp,
    app site AppendField.appendField fresh 1700000000000 req = (resp, fresh)
    /\ status resp = 500%N
    /\ body resp = JsonBody (envelope "Internal server error"
                                      "Unexpected token } in JSON at position 9").
Proof.
  intros req.
  refine (X14_rejected_body_is_a_500_on_every_route site AppendField.appendField fresh 1700000000000 req _
            eq_refl _ _); discriminate.
Defined.

Lemma X15_witness :
  plain_name "missing.png" = true
  /\ exists resp,
       app site AppendField.appendField fresh 1700000000000 (get_request ("/uploads/" +:+ "missing.png"))
       = (resp, fresh)
       /\ not_found_reply resp.
Proof.
  assert (plain_name "missing.png" = true) as Hn by reflexivity.
  split; [exact Hn|].
  refine (X15_missing_file_gets_the_json_404 site AppendField.appendField fresh 1700000000000 "missing.png" Hn _).
  vm_compute. reflexivity.
Defined.

Lemma X16_witness :
  let req := post "/api/screenshot"
               (Multipart [FilePart "screenshot" "a.png" "image/png" png_bytes]) in
  let fs1 := snd (app site AppendField.appendField fresh 1700000000000 req) in
  let get := get_request "/uploads/screenshot-1700000000000.png" in
  body (fst (app site AppendField.appendField fs1 1700000000001 get)) = FileBody png_bytes
  /\ exists rest,
       Fs.node_at fs1 (Path.segments (uploadsDir site) ++ rest) = Some (File png_bytes).
Proof.
  intros req fs1 get.
  assert (body (fst (app site AppendField.appendField fs1 1700000000001 get)) = FileBody png_bytes) as Hb
    by (vm_compute; reflexivity).
  split; [exact Hb|].
  exact (X16_served_files_lie_below_the_root site AppendField.appendField fs1 1700000000001 get png_bytes Hb).
Defined.

Lemma X17_witness :
  Str.all Str.is_lower "jpeg" = true
  /\ strip_data_url_prefix ("data:image/" +:+ "jpeg" +:+ ";base64," +:+ "QUJD") = "QUJD".
Proof.
  assert (Str.all Str.is_lower "jpeg" = true) as Ht by reflexivity.
  split; [exact Ht|].
  refine (proj1 X17_prefix_is_stripped_exactly_for_lowercase_types "jpeg" "QUJD" _ Ht).
  discriminate.
Defined.

Lemma X18_witness :
  let first := FilePart "screenshot" "a.png" "image/png" png_bytes in
  let rest := [Field "note" "two files"; FilePart "screenshot" "b.png" "image/png" png_bytes] in
  let req := post "/api/screenshot" (Multipart ([Field "page" "home"] ++ first :: rest)) in
  existsb carries_file rest = true
  /\ exists resp,
       app site AppendField.appendField fresh 1700000000000 req
       = (resp, delete (site ++ ["uploads"; "screenshot-" +:+ Str.of_N 1700000000000 +:+ ".png"])
                       fresh)
       /\ status resp = 500%N
       /\ body resp = JsonBody (envelope "Internal server error" "Unexpected field").
Proof.
  intros first rest req.
  assert (existsb carries_file rest = true) as Hrest by reflexivity.
  split; [exact Hrest|].
  refine (X18_second_file_fails_the_whole_upload site AppendField.appendField fresh 1700000000000 req
            [Field "page" "home"] rest "a.png" "image/png" png_bytes
            _ eq_refl eq_refl _ eq_refl _ _ Hrest).
  - split; reflexivity.
  - discriminate.
  - vm_compute. reflexivity.
  - vm_compute. reflexivity.
Defined.

Lemma X19_witness :
  let parts := [FilePart "screenshot" "exact.png" "image/png" at_limit] in
  let req := post "/api/screenshot" (Multipart parts) in
  N.of_nat (length at_limit) = (10 * 1024 * 1024)%N
  /\ exists resp fs',
       app site AppendField.appendField fresh 1700000000000 req = (resp, fs')
       /\ too_large_reply resp
       /\ fs' !! Path.segments (Path.join (uploadsDir site) (filename (storage site) 1700000000000))
          = None.
Proof.
  intros parts req.
  assert (N.of_nat (length at_limit) = (10 * 1024 * 1024)%N) as Hsz
    by (vm_compute; reflexivity).
  split; [exact Hsz|].
  refine (X19_image_of_exactly_the_limit_is_rejected site AppendField.appendField fresh
            1700000000000 req parts "exact.png" "image/png" at_limit _ _ _ _ Hsz _).
  - split; reflexivity.
  - reflexivity.
  - reflexivity.
  - reflexivity.
  - vm_compute. reflexivity.
Defined.
